(** * valorant_stats.py: a shallow embedding of [main] and its properties

    The script reads a credential and a Riot ID, issues a short chain of
    HTTP GET calls, folds the per-match statistics of at most five matches
    and prints a KDA and a win rate.  The embedding below follows the source
    line by line: JSON bodies are Python objects with Python's dynamic
    operations (subscript, [.get], truthiness, [==], [in]), the console and
    the network are recorded as a trace of events, and [try]/[except],
    [return] and uncaught exceptions are explicit in the result type. *)

From Stdlib Require Import ZArith String Ascii List Bool Lia DecimalString.
From Stdlib Require Import SpecFloat.
From stdpp Require Import base option list strings gmap.

Local Open Scope string_scope.
Local Open Scope list_scope.
Local Open Scope Z_scope.

(** ** Python objects decoded from JSON

    A [string] stands for a Python [str] whose code points are all below
    256.  JSON numbers are integers (a body with a fractional number is
    outside this model).  The fields of [JObj] are the items of the decoded
    [dict] in insertion order; a key is looked up from the front. *)

#[warnings="-register-all"]
Inductive json : Type :=
| JNull
| JBool (b : bool)
| JNum (n : Z)
| JStr (s : string)
| JArr (items : list json)
| JObj (fields : list (string * json)).

(** The exceptions the script can meet; all derive from [Exception]. *)
Inductive pyexn : Type :=
| RequestException
| HTTPError (status : Z)
| JSONDecodeError
| KeyError
| TypeError
| AttributeError
| IndexError
| ValueError
| ZeroDivisionError
| OverflowError.

(** Result of evaluating a Python expression. *)
Inductive res (A : Type) : Type :=
| Val (a : A)
| Exc (e : pyexn).
Arguments Val {A} a.
Arguments Exc {A} e.

Definition res_bind {A B} (r : res A) (f : A -> res B) : res B :=
  match r with
  | Val a => f a
  | Exc e => Exc e
  end.

Module PyObject.

Fixpoint dict_get (k : string) (d : list (string * json)) : option json :=
  match d with
  | [] => None
  | (k', v) :: d' => if String.eqb k k' then Some v else dict_get k d'
  end.

Definition chars (s : string) : list ascii := list_ascii_of_string s.

Definition char_str (c : ascii) : json := JStr (String c EmptyString).

(** [bool(x)] *)
Definition py_truthy (j : json) : bool :=
  match j with
  | JNull => false
  | JBool b => b
  | JNum n => negb (n =? 0)
  | JStr s => negb (String.eqb s "")
  | JArr l => match l with [] => false | _ :: _ => true end
  | JObj d => match d with [] => false | _ :: _ => true end
  end.

(** [a == b]; [bool] is a subclass of [int], so [True == 1]. *)
Fixpoint py_eq (a b : json) {struct a} : bool :=
  match a, b with
  | JNull, JNull => true
  | JBool x, JBool y => Bool.eqb x y
  | JBool x, JNum y => Z.b2z x =? y
  | JNum x, JBool y => x =? Z.b2z y
  | JNum x, JNum y => x =? y
  | JStr x, JStr y => String.eqb x y
  | JArr xs, JArr ys =>
      (fix all2 (xs ys : list json) {struct xs} : bool :=
         match xs, ys with
         | [], [] => true
         | x :: xs', y :: ys' => py_eq x y && all2 xs' ys'
         | _, _ => false
         end) xs ys
  | JObj xs, JObj ys =>
      (length xs =? length ys)%nat &&
      (fix all (xs : list (string * json)) {struct xs} : bool :=
         match xs with
         | [] => true
         | (k, v) :: xs' =>
             match dict_get k ys with
             | Some v' => py_eq v v'
             | None => false
             end && all xs'
         end) xs
  | _, _ => false
  end.

(** [len(x)]; the script takes it of the sliced match list only, which is
    a [list] or a [str]. *)
Definition py_len (j : json) : Z :=
  match j with
  | JArr l => Z.of_nat (length l)
  | JStr s => Z.of_nat (String.length s)
  | JObj d => Z.of_nat (length d)
  | _ => 0
  end.

(** An [int] (or [bool]) usable as a sequence index. *)
Definition as_index (k : json) : option Z :=
  match k with
  | JNum n => Some n
  | JBool b => Some (Z.b2z b)
  | _ => None
  end.

(** Sequence indexing, negative indices counting from the end. *)
Definition seq_index {A} (l : list A) (i : Z) : option A :=
  let n := Z.of_nat (length l) in
  let j := if i <? 0 then i + n else i in
  if (0 <=? j) && (j <? n) then nth_error l (Z.to_nat j) else None.

(** [c[k]] *)
Definition py_getitem (c k : json) : res json :=
  match c with
  | JObj d =>
      match k with
      | JStr s =>
          match dict_get s d with
          | Some v => Val v
          | None => Exc KeyError
          end
      | JArr _ | JObj _ => Exc TypeError
      | _ => Exc KeyError
      end
  | JArr l =>
      match as_index k with
      | Some i =>
          match seq_index l i with
          | Some v => Val v
          | None => Exc IndexError
          end
      | None => Exc TypeError
      end
  | JStr s =>
      match as_index k with
      | Some i =>
          match seq_index (chars s) i with
          | Some c => Val (char_str c)
          | None => Exc IndexError
          end
      | None => Exc TypeError
      end
  | _ => Exc TypeError
  end.

(** [c.get(key, default)]: only a [dict] has the method. *)
Definition py_get (c : json) (key : string) (default : json) : res json :=
  match c with
  | JObj d =>
      match dict_get key d with
      | Some v => Val v
      | None => Val default
      end
  | _ => Exc AttributeError
  end.

Fixpoint is_substring (t s : string) : bool :=
  String.prefix t s ||
  match s with
  | EmptyString => false
  | String _ s' => is_substring t s'
  end.

(** [item in container] *)
Definition py_contains (container item : json) : res bool :=
  match container with
  | JObj d =>
      match item with
      | JStr s =>
          match dict_get s d with
          | Some _ => Val true
          | None => Val false
          end
      | JArr _ | JObj _ => Exc TypeError
      | _ => Val false
      end
  | JArr l => Val (existsb (fun x => py_eq x item) l)
  | JStr s =>
      match item with
      | JStr t => Val (is_substring t s)
      | _ => Exc TypeError
      end
  | _ => Exc TypeError
  end.

(** The items [for x in j] yields. *)
Definition py_iter (j : json) : res (list json) :=
  match j with
  | JArr l => Val l
  | JStr s => Val (map char_str (chars s))
  | JObj d => Val (map (fun kv => JStr (fst kv)) d)
  | _ => Exc TypeError
  end.

(** [x[:n]]: a [list] or a [str] is sliced; anything else raises (a
    [dict] raises [TypeError] or, from Python 3.12, [KeyError]; both are
    caught alike where the script slices). *)
Definition py_slice_to (n : nat) (j : json) : res json :=
  match j with
  | JArr l => Val (JArr (take n l))
  | JStr s => Val (JStr (string_of_list_ascii (take n (chars s))))
  | _ => Exc TypeError
  end.

(** [total + v] for an [int] total. *)
Definition py_add (total : Z) (v : json) : res Z :=
  match v with
  | JNum n => Val (total + n)
  | JBool b => Val (total + Z.b2z b)
  | _ => Exc TypeError
  end.

End PyObject.
Export PyObject.

(** ** Python floats (IEEE 754 binary64) and fixed-point formatting *)

Module PyFloat.

Definition prec : Z := 53.
Definition emax : Z := 1024.

Definition float := spec_float.

(** [float(z)] for an [int] small enough to be exact. *)
Definition of_small_int (z : Z) : float := binary_normalize prec emax z 0 false.

(** [a / b] on two [int]s: the correctly rounded quotient; a zero divisor
    and a quotient beyond the largest double raise. *)
Definition py_truediv (a b : Z) : res float :=
  if b =? 0 then Exc ZeroDivisionError
  else if a =? 0 then Val (S754_zero (b <? 0))
  else
    match SFdiv prec emax
            (S754_finite (a <? 0) (Z.to_pos (Z.abs a)) 0)
            (S754_finite (b <? 0) (Z.to_pos (Z.abs b)) 0) with
    | S754_infinity _ => Exc OverflowError
    | q => Val q
    end.

(** [x * n] for a float [x] and a small [int] [n]. *)
Definition py_mul_int (x : float) (n : Z) : float :=
  SFmul prec emax x (of_small_int n).

(** Nearest integer to [num / den], ties to even ([den] positive). *)
Definition round_half_even (num den : Z) : Z :=
  let q := num / den in
  let r := num mod den in
  match 2 * r ?= den with
  | Lt => q
  | Gt => q + 1
  | Eq => if Z.even q then q else q + 1
  end.

(** The magnitude [m * 2^e], scaled by [10^digits] and rounded. *)
Definition scaled_magnitude (digits : nat) (m : positive) (e : Z) : Z :=
  let scale := 10 ^ Z.of_nat digits in
  if 0 <=? e then Z.pos m * 2 ^ e * scale
  else round_half_even (Z.pos m * scale) (2 ^ (- e)).

Definition decimal (n : Z) : string := NilZero.string_of_uint (N.to_uint (Z.to_N n)).

Fixpoint zero_pad (width : nat) (s : string) : string :=
  match width with
  | O => s
  | S w => if (String.length s <? width)%nat then zero_pad w ("0" +:+ s) else s
  end.

Definition fixed_digits (digits : nat) (n : Z) : string :=
  let scale := 10 ^ Z.of_nat digits in
  match digits with
  | O => decimal n
  | S _ => decimal (n / scale) +:+ "." +:+ zero_pad digits (decimal (n mod scale))
  end.

Definition sign_str (s : bool) : string := if s then "-" else "".

(** [format(x, '.<digits>f')] *)
Definition format_fixed (digits : nat) (x : float) : string :=
  match x with
  | S754_nan => "nan"
  | S754_infinity s => sign_str s +:+ "inf"
  | S754_zero s => sign_str s +:+ fixed_digits digits 0
  | S754_finite s m e => sign_str s +:+ fixed_digits digits (scaled_magnitude digits m e)
  end.

End PyFloat.
Export PyFloat.


(** ** The console and the network

    A run is observed through the events it causes, in order.  The text of
    an exception is not modelled: a message that embeds one carries the
    exception itself. *)

Inductive request : Type :=
| AccountByRiotId (game_name tag_line : string)
| ActiveShard (puuid : json)
| MatchList (host : string) (puuid : json)
| MatchById (host : string) (match_id : json).

Inductive response : Type :=
| ConnectionFailed
| Response (status : Z) (body : option json).

Inductive event : Type :=
| Prompt (text : string)
| HttpGet (url : request) (token : string)
| Stdout (text : string)
| StdoutValue (label : string) (v : json)
| StdoutError (prefix : string) (e : pyexn)
| StdoutUnknownShard (code : json)
| StdoutSkip (match_id : json) (e : pyexn).

(** What the run finds outside itself: the environment variable after
    [load_dotenv()], the line typed at the prompt, and the server's answer
    to the [n]-th request of the run (counting from 0). *)
Record world : Type := {
  getenv_key : option string;
  stdin_line : string;
  server : nat -> request -> response
}.

(** How a block of statements ends: it falls through with a value, executes
    [return], or lets an exception escape. *)
Inductive ctl (A : Type) : Type :=
| Next (a : A)
| Returned
| Raised (e : pyexn).
Arguments Next {A} a.
Arguments Returned {A}.
Arguments Raised {A} e.

Definition proc (A : Type) : Type := list event * ctl A.

Definition ret {A} (a : A) : proc A := ([], Next a).

Definition bind {A B} (m : proc A) (f : A -> proc B) : proc B :=
  match m with
  | (tr, Next a) => let '(tr', c) := f a in (tr ++ tr', c)
  | (tr, Returned) => (tr, Returned)
  | (tr, Raised e) => (tr, Raised e)
  end.

Definition emit (ev : event) : proc unit := ([ev], Next tt).

Definition early_return {A} : proc A := ([], Returned).

Definition lift {A} (r : res A) : proc A :=
  match r with
  | Val a => ret a
  | Exc e => ([], Raised e)
  end.

(** [try: body  except Exception as e: handler e] *)
Definition try_except {A} (body : proc A) (handler : pyexn -> proc A) : proc A :=
  match body with
  | (tr, Raised e) => let '(tr', c) := handler e in (tr ++ tr', c)
  | other => other
  end.

Declare Scope proc_scope.
Delimit Scope proc_scope with proc.
Notation "'do' x <- m ; k" := (bind m (fun x => k))
  (at level 10, x name, m at level 100, k at level 200) : proc_scope.
Notation "'do' ' pat <- m ; k" := (bind m (fun x => match x with pat => k end))
  (at level 10, pat pattern, m at level 100, k at level 200) : proc_scope.
Local Open Scope proc_scope.

Definition trace {A} (p : proc A) : list event := fst p.
Definition outcome {A} (p : proc A) : ctl A := snd p.

(** [raise_for_status()] and [json()] on what [requests.get] brought back:
    a transport failure, a 4xx or 5xx status and an undecodable body raise. *)
Definition decode (r : response) : res json :=
  match r with
  | ConnectionFailed => Exc RequestException
  | Response status body =>
      if (400 <=? status) && (status <? 600) then Exc (HTTPError status)
      else
        match body with
        | Some j => Val j
        | None => Exc JSONDecodeError
        end
  end.

(** [requests.get(url, headers=headers)], [raise_for_status()], [json()]:
    the [n]-th request of the run. *)
Definition http_get_json (w : world) (n : nat) (url : request) (token : string) : proc json :=
  do _ <- emit (HttpGet url token);
  lift (decode (server w n url)).

(** ** Strings: [strip] and [split] *)

Definition isspace (c : ascii) : bool :=
  let n := nat_of_ascii c in
  (((9 <=? n) && (n <=? 13)) || ((28 <=? n) && (n <=? 32)) || (n =? 133) || (n =? 160))%nat.

Fixpoint lstrip (s : string) : string :=
  match s with
  | EmptyString => EmptyString
  | String c s' => if isspace c then lstrip s' else s
  end.

Fixpoint rstrip (s : string) : string :=
  match s with
  | EmptyString => EmptyString
  | String c s' =>
      match rstrip s' with
      | EmptyString => if isspace c then EmptyString else String c EmptyString
      | r => String c r
      end
  end.

Definition strip (s : string) : string := rstrip (lstrip s).

(** [s.split(sep)] for a one-character separator. *)
Fixpoint split (sep : ascii) (s : string) : list string :=
  match s with
  | EmptyString => [EmptyString]
  | String c s' =>
      if Ascii.eqb c sep then EmptyString :: split sep s'
      else
        match split sep s' with
        | p :: ps => String c p :: ps
        | [] => [String c EmptyString]
        end
  end.

Fixpoint count (sep : ascii) (s : string) : nat :=
  match s with
  | EmptyString => O
  | String c s' => if Ascii.eqb c sep then S (count sep s') else count sep s'
  end.

Definition hash : ascii := "#"%char.

(** ** The script *)

Definition americas : string := "americas.api.riotgames.com".

Definition region_map : gmap string string :=
  list_to_map
    [("na", americas); ("latam", americas); ("br", americas);
     ("eu", "eu.api.riotgames.com"); ("ap", "asia.api.riotgames.com");
     ("kr", "kr.api.riotgames.com")].

(** [region_map.get(code, fallback)]: the key must be hashable. *)
Definition region_get (code : json) (fallback : string) : res string :=
  match code with
  | JStr s => Val (default fallback (region_map !! s))
  | JArr _ | JObj _ => Exc TypeError
  | _ => Val fallback
  end.

(** [code in region_map] *)
Definition region_contains (code : json) : res bool :=
  match code with
  | JStr s => Val (bool_decide (is_Some (region_map !! s)))
  | JArr _ | JObj _ => Exc TypeError
  | _ => Val false
  end.

Record totals : Type := {
  total_kills : Z;
  total_deaths : Z;
  total_assists : Z;
  total_wins : Z
}.

Definition no_totals : totals :=
  {| total_kills := 0; total_deaths := 0; total_assists := 0; total_wins := 0 |}.

(** [next((p for p in players_list if p["puuid"] == puuid), None)] *)
Fixpoint first_player (players : list json) (puuid : json) : res (option json) :=
  match players with
  | [] => Val None
  | p :: rest =>
      match py_getitem p (JStr "puuid") with
      | Exc e => Exc e
      | Val v => if py_eq v puuid then Val (Some p) else first_player rest puuid
      end
  end.

Definition find_player (players_list puuid : json) : res (option json) :=
  res_bind (py_iter players_list) (fun players => first_player players puuid).

(** Lines 144-146: whether the matched player's team carries a true win flag. *)
Definition team_won (team_id teams_data : json) : res bool :=
  if py_truthy team_id then
    res_bind (py_contains teams_data team_id) (fun present =>
      if present then
        res_bind (py_getitem teams_data team_id) (fun team =>
          res_bind (py_get team "won" JNull) (fun won => Val (py_truthy won)))
      else Val false)
  else Val false.

(** Lines 128-146: add one player's line to the totals. *)
Definition add_player (t : totals) (player_data match_data : json) : res totals :=
  res_bind (py_get player_data "stats" (JObj [])) (fun stats =>
  res_bind (py_get stats "kills" (JNum 0)) (fun kills =>
  res_bind (py_get stats "deaths" (JNum 0)) (fun deaths =>
  res_bind (py_get stats "assists" (JNum 0)) (fun assists =>
  res_bind (py_add (total_kills t) kills) (fun k =>
  res_bind (py_add (total_deaths t) deaths) (fun d =>
  res_bind (py_add (total_assists t) assists) (fun a =>
  res_bind (py_get player_data "teamId" JNull) (fun team_id =>
  res_bind (py_get match_data "teams" (JObj [])) (fun teams_data =>
  res_bind (team_won team_id teams_data) (fun won =>
  Val {| total_kills := k; total_deaths := d; total_assists := a;
         total_wins := if won then total_wins t + 1 else total_wins t |})))))))))).

(** Lines 116-146: what a fetched match does to the totals; [continue]
    leaves them as they are. *)
Definition aggregate (t : totals) (puuid match_data : json) : res totals :=
  res_bind (py_get match_data "players" (JArr [])) (fun players_list =>
  if negb (py_truthy players_list) then Val t
  else
    res_bind (find_player players_list puuid) (fun found =>
    match found with
    | None => Val t
    | Some player_data =>
        if negb (py_truthy player_data) then Val t
        else add_player t player_data match_data
    end)).

(** Line 89: [data.get("history", [])[:5]], the capped match list. *)
Definition capped_history (data : json) : res json :=
  res_bind (py_get data "history" (JArr [])) (fun history => py_slice_to 5 history).

Definition prompt : string := "Enter Riot ID (e.g., GameName#TagLine): ".

Definition format_error : string := "Invalid Riot ID format. Must be GameName#TagLine.".

Section Main.

Variable w : world.

(** Lines 10-21. *)
Definition read_identity : proc (string * string * string * string) :=
  match getenv_key w with
  | Some api_key =>
      if String.eqb api_key "" then
        do _ <- emit (Stdout "Missing RIOT_API_KEY in .env file."); early_return
      else
        do _ <- emit (Prompt prompt);
        let riot_id := strip (stdin_line w) in
        match split hash riot_id with
        | [game_name; tag_line] => ret (api_key, riot_id, game_name, tag_line)
        | _ =>
            do _ <- emit (Stdout format_error);
            early_return
        end
  | None =>
      do _ <- emit (Stdout "Missing RIOT_API_KEY in .env file."); early_return
  end.

(** Lines 33-45: request 0. *)
Definition fetch_puuid (api_key game_name tag_line : string) : proc json :=
  try_except
    (do account_data <- http_get_json w 0 (AccountByRiotId game_name tag_line) api_key;
     do puuid <- lift (py_getitem account_data (JStr "puuid"));
     do _ <- emit (StdoutValue "ACCOUNT DATA:" account_data);
     ret puuid)
    (fun e => do _ <- emit (StdoutError "Error fetching PUUID: " e); early_return).

(** Lines 51-63: request 1. *)
Definition fetch_shard (api_key : string) (puuid : json) : proc json :=
  try_except
    (do active_shard_data <- http_get_json w 1 (ActiveShard puuid) api_key;
     do actual_region <- lift (py_getitem active_shard_data (JStr "activeShard"));
     do _ <- emit (StdoutValue "ACTIVE SHARD:" actual_region);
     ret actual_region)
    (fun e => do _ <- emit (StdoutError "Error fetching active shard: " e); early_return).

(** Lines 68-79. *)
Definition resolve_domain (actual_region : json) : proc string :=
  do val_domain <- lift (region_get actual_region americas);
  do _ <- (if negb (String.eqb val_domain americas) then
             do known <- lift (region_contains actual_region);
             if negb known then emit (StdoutUnknownShard actual_region) else ret tt
           else ret tt);
  ret val_domain.

(** Lines 84-96: request 2. *)
Definition fetch_matches (api_key val_domain : string) (puuid : json) : proc json :=
  do matches <-
    try_except
      (do data <- http_get_json w 2 (MatchList val_domain puuid) api_key;
       lift (capped_history data))
      (fun e => do _ <- emit (StdoutError "Error fetching match history: " e); early_return);
  if negb (py_truthy matches) then
    do _ <- emit (Stdout "No matches found."); early_return
  else ret matches.

(** Lines 104-146: one iteration of the loop, issuing request [n]. *)
Definition process_match (api_key val_domain : string) (puuid : json)
    (n : nat) (match_item : json) (t : totals) : proc totals :=
  do match_id <- lift (py_getitem match_item (JStr "matchId"));
  do fetched <-
    try_except
      (do match_data <- http_get_json w n (MatchById val_domain match_id) api_key;
       ret (Some match_data))
      (fun e => do _ <- emit (StdoutSkip match_id e); ret None);
  match fetched with
  | None => ret t
  | Some match_data => lift (aggregate t puuid match_data)
  end.

(** Lines 103-146: the loop; the first iteration issues request [n]. *)
Fixpoint for_matches (api_key val_domain : string) (puuid : json)
    (n : nat) (items : list json) (t : totals) : proc totals :=
  match items with
  | [] => ret t
  | match_item :: rest =>
      do t' <- process_match api_key val_domain puuid n match_item t;
      for_matches api_key val_domain puuid (S n) rest t'
  end.

(** Lines 151-154. *)
Definition kda_of (t : totals) : res float :=
  let deaths_safe := Z.max 1 (total_deaths t) in
  py_truediv (total_kills t + total_assists t) deaths_safe.

Definition win_rate_of (t : totals) (matches : json) : res float :=
  let games_count := py_len matches in
  if games_count =? 0 then Val (S754_zero false)
  else res_bind (py_truediv (total_wins t) games_count) (fun q => Val (py_mul_int q 100)).

(** Lines 151-161. *)
Definition report (riot_id : string) (t : totals) (matches : json) : proc unit :=
  do kda <- lift (kda_of t);
  do win_rate <- lift (win_rate_of t matches);
  do _ <- emit (Stdout (String "010" ("Stats for " +:+ riot_id +:+ ":")));
  do _ <- emit (Stdout ("KDA: " +:+ format_fixed 2 kda));
  emit (Stdout ("Win Rate: " +:+ format_fixed 1 win_rate +:+ "%")).

(** Lines 10-79: credential, Riot ID, account id and API host. *)
Definition resolve : proc (string * string * string * json) :=
  do '(api_key, riot_id, game_name, tag_line) <- read_identity;
  do puuid <- fetch_puuid api_key game_name tag_line;
  do actual_region <- fetch_shard api_key puuid;
  do val_domain <- resolve_domain actual_region;
  ret (api_key, riot_id, val_domain, puuid).

(** Lines 10-96: all that precedes the loop. *)
Definition lookups : proc (string * string * string * json * json) :=
  do '(api_key, riot_id, val_domain, puuid) <- resolve;
  do matches <- fetch_matches api_key val_domain puuid;
  ret (api_key, riot_id, val_domain, puuid, matches).

(** Lines 10-146: everything before the report; a run that gets through
    hands the report its Riot ID, totals and capped match list. *)
Definition collect : proc (string * totals * json) :=
  do '(api_key, riot_id, val_domain, puuid, matches) <- lookups;
  do items <- lift (py_iter matches);
  do t <- for_matches api_key val_domain puuid 3 items no_totals;
  ret (riot_id, t, matches).

Definition main : proc unit :=
  do '(riot_id, t, matches) <- collect;
  report riot_id t matches.

End Main.

(** ** Observations on traces *)

Definition is_http_get (ev : event) : bool :=
  match ev with
  | HttpGet _ _ => true
  | _ => false
  end.

Definition is_detail_get (ev : event) : bool :=
  match ev with
  | HttpGet (MatchById _ _) _ => true
  | _ => false
  end.

(** The number of match-detail requests a trace holds. *)
Definition detail_calls (tr : list event) : nat := length (List.filter is_detail_get tr).

(** A line of the final report. *)
Definition is_report_line (ev : event) : bool :=
  match ev with
  | Stdout text => String.prefix "KDA: " text || String.prefix "Win Rate: " text
  | _ => false
  end.

(** A JSON object carrying the field [key]. *)
Definition has_field (j : json) (key : string) : bool :=
  match j with
  | JObj d => match dict_get key d with Some _ => true | None => false end
  | _ => false
  end.

(** What the loop can add to a trace. *)
Definition is_loop_event (ev : event) : bool :=
  match ev with
  | HttpGet (MatchById _ _) _ | StdoutSkip _ _ => true
  | _ => false
  end.

Definition is_shard_warning (ev : event) : bool :=
  match ev with
  | StdoutUnknownShard _ => true
  | _ => false
  end.

(** A participant entry that carries the account id [puuid]. *)
Definition is_caller (puuid p : json) : bool :=
  match py_getitem p (JStr "puuid") with
  | Val v => py_eq v puuid
  | Exc _ => false
  end.

(** A participant entry that carries another account id. *)
Definition is_other (puuid p : json) : bool :=
  match py_getitem p (JStr "puuid") with
  | Val v => negb (py_eq v puuid)
  | Exc _ => false
  end.

(** [p] run after the events [tr]. *)
Definition after {A} (tr : list event) (p : proc A) : proc A :=
  (tr ++ trace p, outcome p).

(** The three lines of the report for a KDA and a win rate. *)
Definition report_lines (riot_id : string) (kda win_rate : float) : list event :=
  [Stdout (String "010" ("Stats for " +:+ riot_id +:+ ":"));
   Stdout ("KDA: " +:+ format_fixed 2 kda);
   Stdout ("Win Rate: " +:+ format_fixed 1 win_rate +:+ "%")].

(** The number of HTTP requests a trace holds. *)
Definition http_calls (tr : list event) : nat := length (List.filter is_http_get tr).

(** Whether a request, if [ev] is one, carries the token [key]. *)
Definition sent_with (key : option string) (ev : event) : bool :=
  match ev with
  | HttpGet _ token => bool_decide (key = Some token)
  | _ => true
  end.

(** Whether a match-list or match-detail request, if [ev] is one, goes to [host]. *)
Definition goes_to (host : string) (ev : event) : bool :=
  match ev with
  | HttpGet (MatchList h _) _ | HttpGet (MatchById h _) _ => String.eqb h host
  | _ => true
  end.

(** Both at once: the token and the host of a request. *)
Definition well_sent (key : option string) (host : string) (ev : event) : bool :=
  sent_with key ev && goes_to host ev.

(** The hosts the region table can yield. *)
Definition known_hosts : list string :=
  [americas; "eu.api.riotgames.com"; "asia.api.riotgames.com"; "kr.api.riotgames.com"].

(** The match ids of the match-detail requests of a trace, in order. *)
Fixpoint detail_ids (tr : list event) : list json :=
  match tr with
  | [] => []
  | HttpGet (MatchById _ match_id) _ :: rest => match_id :: detail_ids rest
  | _ :: rest => detail_ids rest
  end.

(** Python's hashable JSON values: all but [list] and [dict]. *)
Definition is_hashable (j : json) : bool :=
  match j with
  | JArr _ | JObj _ => false
  | _ => true
  end.

Definition is_object (j : json) : bool :=
  match j with
  | JObj _ => true
  | _ => false
  end.

(** A value [+=] accepts on an [int] total. *)
Definition is_number (j : json) : bool :=
  match j with
  | JNum _ | JBool _ => true
  | _ => false
  end.

(** The matched player's entry gives no value for the statistic [key]: it
    has no [stats] object, or its [stats] object lacks the key. *)
Definition stat_absent (fields : list (string * json)) (key : string) : Prop :=
  dict_get "stats" fields = None \/
  exists stats, dict_get "stats" fields = Some (JObj stats) /\ dict_get key stats = None.



(** The win rates a report can show. *)
Definition win_rate_texts : list string :=
  ["0.0"; "20.0"; "25.0"; "33.3"; "40.0"; "50.0"; "60.0"; "66.7"; "75.0"; "80.0"; "100.0"].

(** [sep.join(parts)] *)
Fixpoint join_tail (sep : ascii) (parts : list string) : string :=
  match parts with
  | [] => EmptyString
  | p :: ps => String sep (p +:+ join_tail sep ps)
  end.

Definition join (sep : ascii) (parts : list string) : string :=
  match parts with
  | [] => EmptyString
  | p :: ps => p +:+ join_tail sep ps
  end.

(** ** Sample worlds *)

Module Sample.

Definition me : json := JStr "puuid-7".

Definition player (id : string) (team : string) (k d a : Z) : json :=
  JObj [("puuid", JStr id); ("teamId", JStr team);
        ("stats", JObj [("kills", JNum k); ("deaths", JNum d); ("assists", JNum a)])].

Definition teams (red_won : bool) : json :=
  JObj [("Red", JObj [("won", JBool red_won)]); ("Blue", JObj [("won", JBool (negb red_won))])].

Definition match_ids : list json :=
  map (fun s => JObj [("matchId", JStr s)]) ["m1"; "m2"; "m3"; "m4"; "m5"; "m6"].

(** Five matches are attempted: two wins, one loss, one failed fetch and
    one match in which the caller does not appear. *)
Definition details (n : nat) : response :=
  match n with
  | 3%nat => Response 200 (Some (JObj [("players", JArr [player "other" "Blue" 9 9 9; player "puuid-7" "Red" 2 0 1]);
                                   ("teams", teams true)]))
  | 4%nat => Response 500 None
  | 5%nat => Response 200 (Some (JObj [("players", JArr [player "puuid-7" "Blue" 1 0 1; player "puuid-7" "Red" 5 5 5]);
                                   ("teams", teams false)]))
  | 6%nat => Response 200 (Some (JObj [("players", JArr [JObj [("puuid", me); ("teamId", JStr "Red")]]);
                                   ("teams", teams false)]))
  | _ => Response 200 (Some (JObj [("players", JArr [player "other" "Red" 4 4 4]); ("teams", teams true)]))
  end.

Definition answers (shard : json) (history : json) (n : nat) (_ : request) : response :=
  match n with
  | 0%nat => Response 200 (Some (JObj [("puuid", me); ("gameName", JStr "Player"); ("tagLine", JStr "NA1")]))
  | 1%nat => Response 200 (Some (JObj [("puuid", me); ("game", JStr "val"); ("activeShard", shard)]))
  | 2%nat => Response 200 (Some (JObj [("puuid", me); ("history", history)]))
  | _ => details n
  end.

Definition played : world :=
  {| getenv_key := Some "RGAPI-0000";
     stdin_line := "  Player#NA1 ";
     server := answers (JStr "na") (JArr match_ids) |}.

(** The same world with a line that holds two separators. *)
Definition two_tags : world :=
  {| getenv_key := Some "RGAPI-0000";
     stdin_line := "Player#NA1#x";
     server := answers (JStr "na") (JArr match_ids) |}.

Definition override (n : nat) (r : response) (f : nat -> request -> response)
    (m : nat) (url : request) : response :=
  if Nat.eqb m n then r else f m url.

Definition with_server (f : nat -> request -> response) : world :=
  {| getenv_key := Some "RGAPI-0000"; stdin_line := "  Player#NA1 "; server := f |}.

(** The account lookup answers without the [puuid] field. *)
Definition no_account_id : world :=
  with_server (override 0 (Response 200 (Some (JObj [("gameName", JStr "Player")])))
                 (server played)).

(** The account lookup fails in transport. *)
Definition unplugged : world :=
  with_server (override 0 ConnectionFailed (server played)).

(** The shard lookup answers a code the table does not hold. *)
Definition far_shard : world :=
  with_server (answers (JStr "xx") (JArr match_ids)).

(** The match list is empty. *)
Definition no_history : world :=
  with_server (answers (JStr "eu") (JArr [])).

(** The third match lists an entry without [puuid] before the caller's. *)
Definition broken_roster : world :=
  with_server
    (override 5
       (Response 200
          (Some (JObj [("players", JArr [player "other" "Blue" 1 1 1;
                                         JObj [("name", JStr "ghost")];
                                         player "puuid-7" "Red" 1 1 1]);
                       ("teams", teams true)])))
       (server played)).

Definition item (id : string) : json := JObj [("matchId", JStr id)].

(** The totals of [played] once its first match is processed. *)
Definition after_first : totals :=
  {| total_kills := 2; total_deaths := 0; total_assists := 1; total_wins := 1 |}.

(** The body [broken_roster] answers for its third match. *)
Definition broken_body : json :=
  JObj [("players", JArr [player "other" "Blue" 1 1 1;
                          JObj [("name", JStr "ghost")];
                          player "puuid-7" "Red" 1 1 1]);
        ("teams", teams true)].

(** The body [played] answers for its fifth match. *)
Definition stranger_body : json :=
  JObj [("players", JArr [player "other" "Red" 4 4 4]); ("teams", teams true)].

(** What [played] hands to the report. *)
Definition played_totals : totals :=
  {| total_kills := 3; total_deaths := 0; total_assists := 2; total_wins := 2 |}.

Definition played_matches : json := JArr (take 5 match_ids).

(** No credential in the environment. *)
Definition no_key : world :=
  {| getenv_key := None; stdin_line := "Player#NA1"; server := server played |}.

(** The line typed is a lone separator. *)
Definition lone_hash : world :=
  {| getenv_key := Some "RGAPI-0000"; stdin_line := " # "; server := server played |}.

(** The shard lookup answers with a server error. *)
Definition shard_down : world :=
  with_server (override 1 (Response 503 None) (server played)).


(** The match list answers [null] for its history. *)
Definition null_history : world :=
  with_server (answers (JStr "na") JNull).

(** A player entry whose [deaths] is [null]. *)
Definition null_deaths : json :=
  JObj [("puuid", me); ("teamId", JStr "Red");
        ("stats", JObj [("kills", JNum 4); ("deaths", JNull); ("assists", JNum 1)])].

(** A player entry with kills only, and teams given as a list of objects. *)
Definition kills_only : json :=
  JObj [("puuid", me); ("teamId", JStr "Red"); ("stats", JObj [("kills", JNum 4)])].

Definition listed_teams : json :=
  JObj [("players", JArr [kills_only]);
        ("teams", JArr [JObj [("teamId", JStr "Red"); ("won", JBool true)];
                        JObj [("teamId", JStr "Blue"); ("won", JBool false)]])].

(** The second entry of the match list has no [matchId]. *)
Definition nameless_match : world :=
  with_server (answers (JStr "na") (JArr [item "m1"; JObj [("id", JStr "m2")]; item "m3"])).

End Sample.

(** ** Laws of the trace monad *)

Section ProcLaws.

Context {A B : Type}.

Lemma bind_ret (a : A) (f : A -> proc B) : bind (ret a) f = f a.
Proof. unfold bind, ret. destruct (f a) as [tr c]. reflexivity. Qed.

Lemma bind_next (m : proc A) (f : A -> proc B) tr a :
  m = (tr, Next a) -> bind m f = (tr ++ trace (f a), outcome (f a)).
Proof. intros ->. unfold bind. destruct (f a); reflexivity. Qed.

Lemma bind_returned (m : proc A) (f : A -> proc B) tr :
  m = (tr, Returned) -> bind m f = (tr, Returned).
Proof. intros ->. reflexivity. Qed.

Lemma bind_raised (m : proc A) (f : A -> proc B) tr e :
  m = (tr, Raised e) -> bind m f = (tr, Raised e).
Proof. intros ->. reflexivity. Qed.

Lemma bind_next_inv (m : proc A) (f : A -> proc B) tr b :
  bind m f = (tr, Next b) ->
  exists tr1 a tr2, m = (tr1, Next a) /\ f a = (tr2, Next b) /\ tr = tr1 ++ tr2.
Proof.
  destruct m as [tr1 [a| |e]]; simpl; try discriminate.
  destruct (f a) as [tr2 c] eqn:Hf. intros [= <- ->].
  exists tr1, a, tr2. auto.
Qed.


End ProcLaws.

Lemma bind_ext {A B} (m : proc A) (f g : A -> proc B) :
  (forall a, f a = g a) -> bind m f = bind m g.
Proof. intros H. destruct m as [tr [a| |e]]; simpl; [rewrite H|..]; reflexivity. Qed.

Lemma bind_assoc {A B C} (m : proc A) (f : A -> proc B) (g : B -> proc C) :
  bind (bind m f) g = bind m (fun a => bind (f a) g).
Proof.
  destruct m as [tr [a| |e]]; simpl; try reflexivity.
  destruct (f a) as [tr1 [b| |e]]; simpl; try reflexivity.
  destruct (g b) as [tr2 c]. rewrite app_assoc. reflexivity.
Qed.

Lemma lift_next_inv {A} (r : res A) tr a :
  lift r = (tr, Next a) -> r = Val a /\ tr = [].
Proof. destruct r; simpl; [intros [= <- <-]; auto | discriminate]. Qed.

(** ** Checks of the float model against CPython *)

Example one_third :
  py_truediv 1 3 = Val (S754_finite false 6004799503160661 (-54)).
Proof. vm_compute. reflexivity. Qed.

Example tie_rounds_to_even :
  res_bind (py_truediv 1 8) (fun x => Val (format_fixed 2 x)) = Val "0.12".
Proof. vm_compute. reflexivity. Qed.

Example binary_value_decides :
  res_bind (py_truediv 1 200) (fun x => Val (format_fixed 2 x)) = Val "0.01".
Proof. vm_compute. reflexivity. Qed.

Example negative_quotient :
  res_bind (py_truediv (-7) 3) (fun x => Val (format_fixed 2 x)) = Val "-2.33".
Proof. vm_compute. reflexivity. Qed.

Example large_operands :
  res_bind (py_truediv (10 ^ 400) (10 ^ 399)) (fun x => Val (format_fixed 2 x)) = Val "10.00".
Proof. vm_compute. reflexivity. Qed.

Example quotient_too_large : py_truediv (10 ^ 400) 1 = Exc OverflowError.
Proof. vm_compute. reflexivity. Qed.

Example one_win_in_three :
  res_bind (py_truediv 1 3) (fun q => Val (format_fixed 1 (py_mul_int q 100))) = Val "33.3".
Proof. vm_compute. reflexivity. Qed.

(** ** Riot ID parsing *)

Lemma isspace_not_hash c : isspace c = true -> Ascii.eqb c hash = false.
Proof.
  intros Hc. destruct (Ascii.eqb_spec c hash) as [->|]; [|reflexivity].
  discriminate Hc.
Qed.

Lemma count_lstrip s : count hash (lstrip s) = count hash s.
Proof.
  induction s as [|c s IH]; simpl; [reflexivity|].
  destruct (isspace c) eqn:Hc; [|reflexivity].
  rewrite (isspace_not_hash c Hc). exact IH.
Qed.

Lemma count_rstrip s : count hash (rstrip s) = count hash s.
Proof.
  induction s as [|c s IH]; simpl; [reflexivity|].
  destruct (rstrip s) as [|c' r] eqn:Hr.
  - simpl in IH. destruct (isspace c) eqn:Hc; simpl.
    + rewrite (isspace_not_hash c Hc). exact IH.
    + rewrite <- IH. reflexivity.
  - change (count hash (String c (String c' r))) with
      (if Ascii.eqb c hash then S (count hash (String c' r)) else count hash (String c' r)).
    rewrite IH. reflexivity.
Qed.

Lemma count_strip s : count hash (strip s) = count hash s.
Proof. unfold strip. rewrite count_rstrip. apply count_lstrip. Qed.

Lemma length_split sep s : length (split sep s) = S (count sep s).
Proof.
  induction s as [|c s IH]; simpl; [reflexivity|].
  destruct (Ascii.eqb c sep); simpl; [rewrite IH; reflexivity|].
  destruct (split sep s); simpl in *; [discriminate IH | exact IH].
Qed.

Lemma read_identity_next_inv w tr api_key riot_id game_name tag_line :
  read_identity w = (tr, Next (api_key, riot_id, game_name, tag_line)) ->
  getenv_key w = Some api_key /\ api_key <> "" /\
  riot_id = strip (stdin_line w) /\ split hash riot_id = [game_name; tag_line] /\
  tr = [Prompt prompt].
Proof.
  unfold read_identity. destruct (getenv_key w) as [k|]; [|discriminate].
  destruct (String.eqb_spec k "") as [->|Hk]; [discriminate|].
  destruct (split hash (strip (stdin_line w))) as [|g [|t [|x rest]]] eqn:Hs;
    try discriminate.
  intros [= <- <- <- <- <-]. auto.
Qed.

(** ** The three lookups, case by case *)

Lemma http_get_json_eq w n url token :
  http_get_json w n url token =
  ([HttpGet url token],
   match decode (server w n url) with
   | Val j => Next j
   | Exc e => Raised e
   end).
Proof. unfold http_get_json. destruct (decode (server w n url)); reflexivity. Qed.

Lemma fetch_puuid_eq w api_key game_name tag_line :
  fetch_puuid w api_key game_name tag_line =
  let url := AccountByRiotId game_name tag_line in
  match res_bind (decode (server w 0 url))
          (fun account_data => res_bind (py_getitem account_data (JStr "puuid"))
             (fun puuid => Val (account_data, puuid))) with
  | Val (account_data, puuid) =>
      ([HttpGet url api_key; StdoutValue "ACCOUNT DATA:" account_data], Next puuid)
  | Exc e => ([HttpGet url api_key; StdoutError "Error fetching PUUID: " e], Returned)
  end.
Proof.
  unfold fetch_puuid. rewrite http_get_json_eq.
  destruct (decode _) as [j|e]; simpl; [|reflexivity].
  destruct (py_getitem j (JStr "puuid")); reflexivity.
Qed.

Lemma fetch_shard_eq w api_key puuid :
  fetch_shard w api_key puuid =
  let url := ActiveShard puuid in
  match res_bind (decode (server w 1 url))
          (fun data => py_getitem data (JStr "activeShard")) with
  | Val actual_region =>
      ([HttpGet url api_key; StdoutValue "ACTIVE SHARD:" actual_region], Next actual_region)
  | Exc e => ([HttpGet url api_key; StdoutError "Error fetching active shard: " e], Returned)
  end.
Proof.
  unfold fetch_shard. rewrite http_get_json_eq.
  destruct (decode _) as [j|e]; simpl; [|reflexivity].
  destruct (py_getitem j (JStr "activeShard")); reflexivity.
Qed.

Lemma fetch_matches_eq w api_key val_domain puuid :
  fetch_matches w api_key val_domain puuid =
  let url := MatchList val_domain puuid in
  match res_bind (decode (server w 2 url)) capped_history with
  | Val matches =>
      if py_truthy matches then ([HttpGet url api_key], Next matches)
      else ([HttpGet url api_key; Stdout "No matches found."], Returned)
  | Exc e => ([HttpGet url api_key; StdoutError "Error fetching match history: " e], Returned)
  end.
Proof.
  unfold fetch_matches. rewrite http_get_json_eq.
  destruct (decode _) as [j|e]; simpl; [|reflexivity].
  destruct (capped_history j) as [m|e]; simpl; [|reflexivity].
  destruct (py_truthy m); reflexivity.
Qed.

Lemma region_known code host :
  region_get code americas = Val host -> host <> americas ->
  region_contains code = Val true.
Proof.
  destruct code as [| | |s| |]; simpl; try discriminate;
    try (intros [= <-] Hne; contradiction).
  destruct (region_map !! s) as [h|] eqn:Hs; simpl.
  - intros _ _. reflexivity.
  - intros [= <-] Hne. contradiction.
Qed.

Lemma resolve_domain_eq actual_region :
  resolve_domain actual_region =
  ([], match region_get actual_region americas with
       | Val val_domain => Next val_domain
       | Exc e => Raised e
       end).
Proof.
  unfold resolve_domain.
  destruct (region_get actual_region americas) as [h|e] eqn:Hget; simpl; [|reflexivity].
  destruct (String.eqb_spec h americas) as [->|Hne]; simpl; [reflexivity|].
  rewrite (region_known _ _ Hget Hne). reflexivity.
Qed.

(** ** The loop *)

Lemma process_match_eq w api_key val_domain puuid n match_item t :
  process_match w api_key val_domain puuid n match_item t =
  match py_getitem match_item (JStr "matchId") with
  | Exc e => ([], Raised e)
  | Val match_id =>
      let url := MatchById val_domain match_id in
      match decode (server w n url) with
      | Exc e => ([HttpGet url api_key; StdoutSkip match_id e], Next t)
      | Val match_data =>
          ([HttpGet url api_key],
           match aggregate t puuid match_data with
           | Val t' => Next t'
           | Exc e => Raised e
           end)
      end
  end.
Proof.
  unfold process_match.
  destruct (py_getitem match_item (JStr "matchId")) as [mid|e]; simpl; [|reflexivity].
  rewrite http_get_json_eq.
  destruct (decode _) as [md|e]; simpl; [|reflexivity].
  destruct (aggregate t puuid md); reflexivity.
Qed.

Lemma for_matches_app w api_key val_domain puuid xs ys :
  forall n t,
  for_matches w api_key val_domain puuid n (xs ++ ys) t =
  bind (for_matches w api_key val_domain puuid n xs t)
       (fun t' => for_matches w api_key val_domain puuid (n + length xs) ys t').
Proof.
  induction xs as [|x xs IH]; intros n t.
  - cbn [for_matches app length]. rewrite bind_ret, Nat.add_0_r. reflexivity.
  - cbn [for_matches app length]. rewrite bind_assoc. apply bind_ext. intros t1.
    rewrite IH. replace (n + S (length xs))%nat with (S n + length xs)%nat by lia.
    reflexivity.
Qed.

Lemma res_bind_val_inv {A B} (r : res A) (f : A -> res B) b :
  res_bind r f = Val b -> exists a, r = Val a /\ f a = Val b.
Proof. destruct r as [a|e]; simpl; [eauto | discriminate]. Qed.

Ltac res_inv H :=
  repeat match type of H with
  | res_bind _ _ = Val _ =>
      let a := fresh "a" in let Ha := fresh "Ha" in
      apply res_bind_val_inv in H; destruct H as (a & Ha & H)
  end.

Lemma add_player_wins t player_data match_data t' :
  add_player t player_data match_data = Val t' ->
  total_wins t <= total_wins t' <= total_wins t + 1.
Proof.
  unfold add_player. intros H. res_inv H.
  injection H as <-. simpl.
  match goal with |- context [if ?won then _ else _] => destruct won end; lia.
Qed.

Lemma aggregate_wins t puuid match_data t' :
  aggregate t puuid match_data = Val t' ->
  total_wins t <= total_wins t' <= total_wins t + 1.
Proof.
  unfold aggregate. intros H. res_inv H.
  destruct (negb (py_truthy a)); [injection H as <-; lia|].
  res_inv H. destruct a0 as [p|]; [|injection H as <-; lia].
  destruct (negb (py_truthy p)); [injection H as <-; lia|].
  eapply add_player_wins; eassumption.
Qed.

Lemma process_match_next w api_key val_domain puuid n match_item t tr t' :
  process_match w api_key val_domain puuid n match_item t = (tr, Next t') ->
  detail_calls tr = 1%nat /\ total_wins t <= total_wins t' <= total_wins t + 1.
Proof.
  rewrite process_match_eq.
  destruct (py_getitem match_item (JStr "matchId")) as [mid|e]; [|discriminate].
  cbv zeta. destruct (decode _) as [md|e].
  - destruct (aggregate t puuid md) as [t1|e] eqn:Hagg; [|discriminate].
    intros [= <- <-]. split; [reflexivity|]. eapply aggregate_wins; eassumption.
  - intros [= <- <-]. split; [reflexivity|lia].
Qed.

Lemma detail_calls_app tr1 tr2 :
  detail_calls (tr1 ++ tr2) = (detail_calls tr1 + detail_calls tr2)%nat.
Proof. unfold detail_calls. rewrite List.filter_app, length_app. reflexivity. Qed.

(** A loop that runs to its end makes one detail request per item and
    credits at most one win per item. *)
Lemma for_matches_next w api_key val_domain puuid items :
  forall n t tr t',
  for_matches w api_key val_domain puuid n items t = (tr, Next t') ->
  detail_calls tr = length items /\
  total_wins t <= total_wins t' <= total_wins t + Z.of_nat (length items).
Proof.
  induction items as [|x items IH]; intros n t tr t'; simpl.
  - intros [= <- <-]. split; [reflexivity|lia].
  - intros H. apply bind_next_inv in H as (tr1 & t1 & tr2 & H1 & H2 & ->).
    apply process_match_next in H1 as [Hc1 Hw1].
    apply IH in H2 as [Hc2 Hw2].
    rewrite detail_calls_app, Hc1, Hc2. split; [reflexivity|lia].
Qed.

(** ** Runs that reach the report *)

Lemma resolve_next_inv w tr0 api_key riot_id val_domain puuid :
  resolve w = (tr0, Next (api_key, riot_id, val_domain, puuid)) ->
  exists game_name tag_line account_data actual_region,
    read_identity w = ([Prompt prompt], Next (api_key, riot_id, game_name, tag_line)) /\
    decode (server w 0 (AccountByRiotId game_name tag_line)) = Val account_data /\
    py_getitem account_data (JStr "puuid") = Val puuid /\
    res_bind (decode (server w 1 (ActiveShard puuid)))
      (fun data => py_getitem data (JStr "activeShard")) = Val actual_region /\
    region_get actual_region americas = Val val_domain /\
    tr0 = [Prompt prompt;
           HttpGet (AccountByRiotId game_name tag_line) api_key;
           StdoutValue "ACCOUNT DATA:" account_data;
           HttpGet (ActiveShard puuid) api_key;
           StdoutValue "ACTIVE SHARD:" actual_region].
Proof.
  unfold resolve. intros H.
  apply bind_next_inv in H as (tr1 & [[[k rid] g] tg] & tr2 & Hid & H & ->).
  apply bind_next_inv in H as (tr3 & p & tr4 & Hp & H & ->).
  apply bind_next_inv in H as (tr5 & region & tr6 & Hs & H & ->).
  apply bind_next_inv in H as (tr7 & host & tr8 & Hd & H & ->).
  injection H as <- <- <- <- <-.
  pose proof (read_identity_next_inv _ _ _ _ _ _ Hid) as (_ & _ & _ & _ & ->).
  rewrite fetch_puuid_eq in Hp. cbv zeta in Hp.
  destruct (decode (server w 0 (AccountByRiotId g tg))) as [acct|e] eqn:Hacct;
    simpl in Hp; [|discriminate].
  destruct (py_getitem acct (JStr "puuid")) as [p'|e] eqn:Hpu; simpl in Hp; [|discriminate].
  injection Hp as <- <-.
  rewrite fetch_shard_eq in Hs. cbv zeta in Hs.
  destruct (res_bind (decode (server w 1 (ActiveShard p'))) _) as [r|e] eqn:Hsh;
    [|discriminate].
  injection Hs as <- <-.
  rewrite resolve_domain_eq in Hd.
  destruct (region_get r americas) as [h|e] eqn:Hr; [|discriminate].
  injection Hd as <- <-.
  exists g, tg, acct, r. repeat split; auto.
Qed.

Lemma length_string_of_list_ascii l :
  String.length (string_of_list_ascii l) = length l.
Proof. induction l as [|c l IH]; simpl; [reflexivity | rewrite IH; reflexivity]. Qed.

Lemma length_chars s : length (chars s) = String.length s.
Proof. induction s as [|c s IH]; simpl; [reflexivity | rewrite IH; reflexivity]. Qed.

Lemma take5_bounds {A} (l : list A) :
  take 5 l <> [] -> (1 <= length (take 5 l) <= 5)%nat.
Proof.
  intros H. destruct l as [|x l]; [contradiction H; reflexivity|].
  cbn [take length]. rewrite length_take. lia.
Qed.

(** A capped list that passes the emptiness test holds one to five items,
    and the loop iterates over exactly that many. *)
Lemma capped_items data matches :
  capped_history data = Val matches -> py_truthy matches = true ->
  exists items, py_iter matches = Val items /\
    py_len matches = Z.of_nat (length items) /\ (1 <= length items <= 5)%nat.
Proof.
  unfold capped_history. intros H Ht. res_inv H.
  destruct a as [| | |s|l|d]; simpl in H; try discriminate; injection H as <-.
  - assert (Hne : take 5 (chars s) <> []).
    { intros E. rewrite E in Ht. discriminate Ht. }
    exists (map char_str (chars (string_of_list_ascii (take 5 (chars s))))).
    split; [reflexivity|].
    cbn [py_len]. rewrite length_map, length_chars. split; [reflexivity|].
    rewrite length_string_of_list_ascii. apply take5_bounds; exact Hne.
  - assert (Hne : take 5 l <> []).
    { intros E. rewrite E in Ht. discriminate Ht. }
    exists (take 5 l). split; [reflexivity|]. split; [reflexivity|].
    apply take5_bounds. exact Hne.
Qed.

Lemma lookups_next_inv w tr api_key riot_id val_domain puuid matches :
  lookups w = (tr, Next (api_key, riot_id, val_domain, puuid, matches)) ->
  exists tr0,
    resolve w = (tr0, Next (api_key, riot_id, val_domain, puuid)) /\
    res_bind (decode (server w 2 (MatchList val_domain puuid))) capped_history = Val matches /\
    py_truthy matches = true /\
    tr = tr0 ++ [HttpGet (MatchList val_domain puuid) api_key].
Proof.
  unfold lookups. intros H.
  apply bind_next_inv in H as (tr0 & [[[k rid] host] p] & tr1 & Hres & H & ->).
  apply bind_next_inv in H as (tr2 & m & tr3 & Hm & H & ->).
  injection H as <- <- <- <- <- <-.
  rewrite fetch_matches_eq in Hm. cbv zeta in Hm.
  destruct (res_bind (decode (server w 2 (MatchList host p))) capped_history) as [m'|e] eqn:Hcap;
    [|discriminate].
  destruct (py_truthy m') eqn:Htruthy; [|discriminate].
  injection Hm as <- <-.
  exists tr0. rewrite app_nil_r. repeat split; auto.
Qed.

Lemma collect_next_inv w tr riot_id t matches :
  collect w = (tr, Next (riot_id, t, matches)) ->
  exists api_key val_domain puuid tr0 items tr2,
    lookups w = (tr0, Next (api_key, riot_id, val_domain, puuid, matches)) /\
    py_iter matches = Val items /\
    for_matches w api_key val_domain puuid 3 items no_totals = (tr2, Next t) /\
    tr = tr0 ++ tr2.
Proof.
  unfold collect. intros H.
  apply bind_next_inv in H as (tr0 & [[[[k rid] host] p] m] & tr1 & Hlook & H & ->).
  apply bind_next_inv in H as (tr4 & items & tr5 & Hit & H & ->).
  apply bind_next_inv in H as (tr6 & t1 & tr7 & Hloop & H & ->).
  injection H as <- <- <- <-.
  apply lift_next_inv in Hit as [Hit ->].
  exists k, host, p, tr0, items, tr6. rewrite app_nil_r. repeat split; auto.
Qed.

Lemma report_eq riot_id t matches :
  report riot_id t matches =
  match kda_of t with
  | Exc e => ([], Raised e)
  | Val kda =>
      match win_rate_of t matches with
      | Exc e => ([], Raised e)
      | Val win_rate => (report_lines riot_id kda win_rate, Next tt)
      end
  end.
Proof.
  unfold report. destruct (kda_of t) as [kda|e]; simpl; [|reflexivity].
  destruct (win_rate_of t matches); reflexivity.
Qed.

Lemma main_of_collect w tr riot_id t matches :
  collect w = (tr, Next (riot_id, t, matches)) ->
  main w = (tr ++ trace (report riot_id t matches), outcome (report riot_id t matches)).
Proof. intros H. unfold main. rewrite (bind_next _ _ _ _ H). reflexivity. Qed.

(** Dividing a count of wins by a count of one to five games never
    overflows. *)
Lemma small_quotient a b :
  0 <= a <= b -> 1 <= b <= 5 -> exists q, py_truediv a b = Val q.
Proof.
  intros Ha Hb.
  assert (Hcases : List.In (a, b)
    [(0,1); (1,1); (0,2); (1,2); (2,2); (0,3); (1,3); (2,3); (3,3);
     (0,4); (1,4); (2,4); (3,4); (4,4);
     (0,5); (1,5); (2,5); (3,5); (4,5); (5,5)]).
  { assert (b = 1 \/ b = 2 \/ b = 3 \/ b = 4 \/ b = 5) as Hb' by lia.
    assert (a = 0 \/ a = 1 \/ a = 2 \/ a = 3 \/ a = 4 \/ a = 5) as Ha' by lia.
    simpl. destruct Hb' as [->|[->|[->|[->| ->]]]];
      destruct Ha' as [->|[->|[->|[->|[->| ->]]]]]; try lia; tauto. }
  simpl in Hcases.
  repeat (destruct Hcases as [[= <- <-]|Hcases]; [eexists; vm_compute; reflexivity|]).
  contradiction.
Qed.

(** What a run that reaches the report knows about its match list. *)
Lemma collect_counts w tr riot_id t matches :
  collect w = (tr, Next (riot_id, t, matches)) ->
  py_len matches = Z.of_nat (detail_calls tr) /\
  (1 <= detail_calls tr <= 5)%nat /\
  0 <= total_wins t <= Z.of_nat (detail_calls tr).
Proof.
  intros H.
  apply collect_next_inv in H
    as (k & host & p & tr1 & items & tr2 & Hlook & Hit & Hloop & ->).
  apply lookups_next_inv in Hlook as (tr0 & Hres & Hcap & Htruthy & ->).
  apply resolve_next_inv in Hres as (g & tg & acct & region & _ & _ & _ & _ & _ & ->).
  apply res_bind_val_inv in Hcap as (data & _ & Hcap).
  destruct (capped_items _ _ Hcap Htruthy) as (items' & Hit' & Hlen & Hrange).
  rewrite Hit in Hit'. injection Hit' as <-.
  apply for_matches_next in Hloop as [Hcalls Hwins].
  rewrite !detail_calls_app, Hcalls. simpl in Hwins.
  change (detail_calls _ + detail_calls _)%nat with 0%nat.
  split; [exact Hlen|]. split; lia.
Qed.

Lemma win_rate_defined w tr riot_id t matches :
  collect w = (tr, Next (riot_id, t, matches)) ->
  exists q, py_truediv (total_wins t) (Z.of_nat (detail_calls tr)) = Val q /\
    win_rate_of t matches = Val (py_mul_int q 100).
Proof.
  intros H. destruct (collect_counts _ _ _ _ _ H) as (Hlen & Hrange & Hwins).
  destruct (small_quotient (total_wins t) (Z.of_nat (detail_calls tr))) as [q Hq]; [lia..|].
  exists q. split; [exact Hq|].
  unfold win_rate_of. rewrite Hlen.
  destruct (Z.eqb_spec (Z.of_nat (detail_calls tr)) 0) as [E|_]; [lia|].
  rewrite Hq. reflexivity.
Qed.

(** The run from the report on, for a KDA that is representable. *)
Lemma main_reports w tr riot_id t matches kda :
  collect w = (tr, Next (riot_id, t, matches)) ->
  kda_of t = Val kda ->
  exists q, py_truediv (total_wins t) (Z.of_nat (detail_calls tr)) = Val q /\
    main w = (tr ++ report_lines riot_id kda (py_mul_int q 100), Next tt).
Proof.
  intros H Hkda. destruct (win_rate_defined _ _ _ _ _ H) as (q & Hq & Hwr).
  exists q. split; [exact Hq|].
  rewrite (main_of_collect _ _ _ _ _ H), report_eq, Hkda, Hwr. reflexivity.
Qed.

(** C4: when the prompt is reached (the credential is set) and the line
    typed holds no [#] or more than one, the run prints the format error
    and returns; its whole trace is the prompt and that message, so no
    request was made. *)
Theorem malformed_riot_id_stops_before_network (w : world) (api_key : string) :
  getenv_key w = Some api_key ->
  api_key <> "" ->
  count hash (stdin_line w) <> 1%nat ->
  main w = ([Prompt prompt; Stdout format_error], Returned)
  /\ existsb is_http_get (trace (main w)) = false.
Proof.
  intros Hkey Hne Hcount.
  assert (Hid : read_identity w =
    ([Prompt prompt; Stdout format_error], Returned)).
  { unfold read_identity. rewrite Hkey.
    destruct (String.eqb_spec api_key "") as [->|_]; [contradiction|].
    pose proof (length_split hash (strip (stdin_line w))) as Hlen.
    rewrite count_strip in Hlen.
    destruct (split hash (strip (stdin_line w))) as [|g [|t [|x rest]]]; simpl in Hlen;
      try reflexivity.
    exfalso. apply Hcount. lia. }
  assert (Hmain : main w =
    ([Prompt prompt; Stdout format_error], Returned)).
  { unfold main, collect, lookups, resolve.
    rewrite (bind_returned _ _ _ Hid). reflexivity. }
  split; [exact Hmain|]. rewrite Hmain. reflexivity.
Qed.

Lemma malformed_riot_id_witness :
  main Sample.two_tags = ([Prompt prompt; Stdout format_error], Returned)
  /\ existsb is_http_get (trace (main Sample.two_tags)) = false.
Proof.
  apply (malformed_riot_id_stops_before_network Sample.two_tags "RGAPI-0000").
  - reflexivity.
  - discriminate.
  - vm_compute. lia.
Defined.

(** C10: in a run that reaches the report the capped match list holds
    between one and five items, so [games_count] is never zero there and
    the win rate is always computed by the division, never by the [else 0]
    branch. *)
Theorem games_count_between_one_and_five (w : world) tr riot_id t matches :
  collect w = (tr, Next (riot_id, t, matches)) ->
  1 <= py_len matches <= 5 /\
  win_rate_of t matches =
    res_bind (py_truediv (total_wins t) (py_len matches)) (fun q => Val (py_mul_int q 100)).
Proof.
  intros H. destruct (collect_counts _ _ _ _ _ H) as (Hlen & Hrange & _).
  split; [lia|]. unfold win_rate_of.
  destruct (Z.eqb_spec (py_len matches) 0) as [E|_]; [lia | reflexivity].
Qed.

Lemma games_count_witness :
  1 <= py_len Sample.played_matches <= 5 /\
  win_rate_of Sample.played_totals Sample.played_matches =
    res_bind (py_truediv (total_wins Sample.played_totals) (py_len Sample.played_matches))
      (fun q => Val (py_mul_int q 100)).
Proof.
  apply (games_count_between_one_and_five Sample.played
           (trace (collect Sample.played)) "Player#NA1").
  vm_compute. reflexivity.
Defined.

(** C2: in a run that reaches the report, the length of the capped match
    list, which is the divisor of the win rate, equals the number of
    match-detail requests the run made and is at most five; the division
    is defined and the last line printed is the win rate so computed.  In
    particular five attempted matches with two wins print 40.0%, however
    many of the five fetches failed. *)
Theorem win_rate_denominator_is_attempted (w : world) tr riot_id t matches :
  collect w = (tr, Next (riot_id, t, matches)) ->
  py_len matches = Z.of_nat (detail_calls tr) /\
  (detail_calls tr <= 5)%nat /\
  (exists q, py_truediv (total_wins t) (Z.of_nat (detail_calls tr)) = Val q /\
     win_rate_of t matches = Val (py_mul_int q 100) /\
     forall kda, kda_of t = Val kda ->
       main w = (tr ++ report_lines riot_id kda (py_mul_int q 100), Next tt)) /\
  (detail_calls tr = 5%nat -> total_wins t = 2 ->
   forall kda, kda_of t = Val kda ->
     last (trace (main w)) = Some (Stdout "Win Rate: 40.0%")).
Proof.
  intros H. destruct (collect_counts _ _ _ _ _ H) as (Hlen & Hrange & Hwins).
  split; [exact Hlen|]. split; [lia|]. split.
  - destruct (win_rate_defined _ _ _ _ _ H) as (q & Hq & Hwr).
    exists q. split; [exact Hq|]. split; [exact Hwr|].
    intros kda Hkda. destruct (main_reports _ _ _ _ _ _ H Hkda) as (q' & Hq' & Hmain).
    rewrite Hq in Hq'. injection Hq' as <-. exact Hmain.
  - intros H5 H2 kda Hkda.
    destruct (main_reports _ _ _ _ _ _ H Hkda) as (q & Hq & Hmain).
    rewrite H5, H2 in Hq. vm_compute in Hq. injection Hq as <-.
    rewrite Hmain. unfold trace, report_lines. cbn [fst].
    rewrite last_app. reflexivity.
Qed.

Lemma win_rate_denominator_witness :
  detail_calls (trace (collect Sample.played)) = 5%nat /\
  In (StdoutSkip (JStr "m2") (HTTPError 500)) (trace (collect Sample.played)) /\
  last (trace (main Sample.played)) = Some (Stdout "Win Rate: 40.0%").
Proof.
  split; [vm_compute; reflexivity|]. split; [vm_compute; tauto|].
  refine (proj2 (proj2 (proj2
    (win_rate_denominator_is_attempted Sample.played (trace (collect Sample.played))
       "Player#NA1" Sample.played_totals Sample.played_matches _))) _ _
       (S754_finite false 5629499534213120 (-50)) _);
    vm_compute; reflexivity.
Defined.



(** ** Terminal lookups *)

Lemma main_stops_in_resolve w tr :
  resolve w = (tr, Returned) -> main w = (tr, Returned).
Proof. intros H. unfold main, collect, lookups. rewrite H. reflexivity. Qed.

Lemma missing_field_raises j key :
  has_field j key = false ->
  exists e, py_getitem j (JStr key) = Exc e /\ (e = KeyError \/ e = TypeError).
Proof.
  destruct j as [| | |s|l|d]; simpl; intros H; eauto.
  destruct (dict_get key d); [discriminate|]. eauto.
Qed.

Lemma resolve_stops_at_account w tr api_key riot_id game_name tag_line e :
  read_identity w = (tr, Next (api_key, riot_id, game_name, tag_line)) ->
  res_bind (decode (server w 0 (AccountByRiotId game_name tag_line)))
    (fun account_data => res_bind (py_getitem account_data (JStr "puuid"))
       (fun puuid => Val (account_data, puuid))) = Exc e ->
  resolve w = (tr ++ [HttpGet (AccountByRiotId game_name tag_line) api_key;
                      StdoutError "Error fetching PUUID: " e], Returned).
Proof.
  intros Hid Hacc. unfold resolve. rewrite (bind_next _ _ _ _ Hid). cbv beta iota.
  rewrite fetch_puuid_eq. cbv zeta. rewrite Hacc. reflexivity.
Qed.

(** C7: an account-lookup answer whose body lacks the [puuid] field ends
    the run exactly as a transport failure of that request does: after the
    same events, the handler of the account lookup prints its message
    (carrying the exception at hand), and the run returns, with no further
    request and no report. *)
Theorem account_body_without_id_is_terminal (w w' : world)
    tr api_key riot_id game_name tag_line account_data :
  read_identity w = (tr, Next (api_key, riot_id, game_name, tag_line)) ->
  read_identity w' = (tr, Next (api_key, riot_id, game_name, tag_line)) ->
  decode (server w 0 (AccountByRiotId game_name tag_line)) = Val account_data ->
  has_field account_data "puuid" = false ->
  server w' 0 (AccountByRiotId game_name tag_line) = ConnectionFailed ->
  exists e,
    main w = (tr ++ [HttpGet (AccountByRiotId game_name tag_line) api_key;
                     StdoutError "Error fetching PUUID: " e], Returned) /\
    main w' = (tr ++ [HttpGet (AccountByRiotId game_name tag_line) api_key;
                      StdoutError "Error fetching PUUID: " RequestException], Returned).
Proof.
  intros Hid Hid' Hbody Hfield Hfail.
  destruct (missing_field_raises _ _ Hfield) as (e & He & _).
  exists e. split; apply main_stops_in_resolve.
  - apply resolve_stops_at_account with (riot_id := riot_id); [exact Hid|].
    rewrite Hbody. simpl. rewrite He. reflexivity.
  - apply resolve_stops_at_account with (riot_id := riot_id); [exact Hid'|].
    rewrite Hfail. reflexivity.
Qed.

Lemma account_body_without_id_witness :
  exists e,
    main Sample.no_account_id =
      ([Prompt prompt] ++ [HttpGet (AccountByRiotId "Player" "NA1") "RGAPI-0000";
                           StdoutError "Error fetching PUUID: " e], Returned) /\
    main Sample.unplugged =
      ([Prompt prompt] ++ [HttpGet (AccountByRiotId "Player" "NA1") "RGAPI-0000";
                           StdoutError "Error fetching PUUID: " RequestException], Returned).
Proof.
  apply (account_body_without_id_is_terminal Sample.no_account_id Sample.unplugged
           [Prompt prompt] "RGAPI-0000" "Player#NA1" "Player" "NA1"
           (JObj [("gameName", JStr "Player")])); reflexivity.
Defined.

Lemma main_stops_in_lookups w tr :
  lookups w = (tr, Returned) -> main w = (tr, Returned).
Proof. intros H. unfold main, collect. rewrite H. reflexivity. Qed.

(** C8: when the capped match list of the match-list answer is empty, the
    run prints "No matches found." and returns; it makes no match-detail
    request and prints no KDA or win-rate line. *)
Theorem empty_match_list_is_a_normal_exit (w : world)
    tr0 api_key riot_id val_domain puuid data matches :
  resolve w = (tr0, Next (api_key, riot_id, val_domain, puuid)) ->
  decode (server w 2 (MatchList val_domain puuid)) = Val data ->
  capped_history data = Val matches ->
  py_truthy matches = false ->
  main w = (tr0 ++ [HttpGet (MatchList val_domain puuid) api_key;
                    Stdout "No matches found."], Returned) /\
  detail_calls (trace (main w)) = 0%nat /\
  existsb is_report_line (trace (main w)) = false.
Proof.
  intros Hres Hdata Hcap Hempty.
  assert (Hmain : main w = (tr0 ++ [HttpGet (MatchList val_domain puuid) api_key;
                                    Stdout "No matches found."], Returned)).
  { apply main_stops_in_lookups. unfold lookups.
    rewrite (bind_next _ _ _ _ Hres). cbv beta iota.
    rewrite fetch_matches_eq. cbv zeta. rewrite Hdata. simpl res_bind.
    rewrite Hcap, Hempty. reflexivity. }
  split; [exact Hmain|]. rewrite Hmain.
  apply resolve_next_inv in Hres as (g & tg & acct & region & _ & _ & _ & _ & _ & ->).
  split; reflexivity.
Qed.

Lemma empty_match_list_witness :
  main Sample.no_history =
    (trace (resolve Sample.no_history) ++
       [HttpGet (MatchList "eu.api.riotgames.com" Sample.me) "RGAPI-0000";
        Stdout "No matches found."], Returned) /\
  detail_calls (trace (main Sample.no_history)) = 0%nat /\
  existsb is_report_line (trace (main Sample.no_history)) = false.
Proof.
  apply (empty_match_list_is_a_normal_exit Sample.no_history
           (trace (resolve Sample.no_history)) "RGAPI-0000" "Player#NA1"
           "eu.api.riotgames.com" Sample.me
           (JObj [("puuid", Sample.me); ("history", JArr [])]) (JArr []));
    vm_compute; reflexivity.
Defined.

(** ** Inside the loop *)

Lemma after_after {A} tr1 tr2 (p : proc A) :
  after tr1 (after tr2 p) = after (tr1 ++ tr2) p.
Proof. unfold after. simpl. rewrite app_assoc. reflexivity. Qed.


Lemma bind_next_after {A B} (m : proc A) (f : A -> proc B) tr a :
  m = (tr, Next a) -> bind m f = after tr (f a).
Proof. apply bind_next. Qed.

(** The run from the loop on. *)
Lemma main_from_loop w tr0 api_key riot_id val_domain puuid matches items :
  lookups w = (tr0, Next (api_key, riot_id, val_domain, puuid, matches)) ->
  py_iter matches = Val items ->
  main w = after tr0
             (do t <- for_matches w api_key val_domain puuid 3 items no_totals;
              report riot_id t matches).
Proof.
  intros Hlook Hit. unfold main, collect. rewrite bind_assoc.
  rewrite (bind_next_after _ _ _ _ Hlook). cbv beta iota. f_equal.
  rewrite Hit. change (lift (Val items)) with (ret items).
  rewrite bind_ret, bind_assoc. apply bind_ext. intros t.
  rewrite bind_ret. reflexivity.
Qed.

(** The run from the [n]-th item of the loop on, once the items before it
    are processed. *)
Lemma main_from_item w tr0 api_key riot_id val_domain puuid matches
    pre match_item post tr1 t1 :
  lookups w = (tr0, Next (api_key, riot_id, val_domain, puuid, matches)) ->
  py_iter matches = Val (pre ++ match_item :: post) ->
  for_matches w api_key val_domain puuid 3 pre no_totals = (tr1, Next t1) ->
  main w = after (tr0 ++ tr1)
             (do t' <- process_match w api_key val_domain puuid (3 + length pre) match_item t1;
              do t2 <- for_matches w api_key val_domain puuid (4 + length pre) post t';
              report riot_id t2 matches).
Proof.
  intros Hlook Hit Hpre.
  rewrite (main_from_loop _ _ _ _ _ _ _ _ Hlook Hit).
  rewrite for_matches_app, bind_assoc, (bind_next_after _ _ _ _ Hpre), after_after.
  f_equal. cbn [for_matches]. rewrite bind_assoc. reflexivity.
Qed.

Lemma for_matches_trace w api_key val_domain puuid items :
  forall n t,
  forallb is_loop_event (trace (for_matches w api_key val_domain puuid n items t)) = true.
Proof.
  induction items as [|x items IH]; intros n t; [reflexivity|].
  cbn [for_matches]. rewrite process_match_eq.
  destruct (py_getitem x (JStr "matchId")) as [mid|e]; [|reflexivity].
  cbv zeta. destruct (decode _) as [md|e].
  - destruct (aggregate t puuid md) as [t'|e]; [|reflexivity].
    specialize (IH (S n) t'). unfold bind.
    destruct (for_matches w api_key val_domain puuid (S n) items t') as [tr c].
    exact IH.
  - specialize (IH (S n) t). unfold bind.
    destruct (for_matches w api_key val_domain puuid (S n) items t) as [tr c].
    exact IH.
Qed.

Lemma loop_event_not_report tr :
  forallb is_loop_event tr = true -> existsb is_report_line tr = false.
Proof.
  induction tr as [|ev tr IH]; [reflexivity|]. simpl.
  intros H. apply andb_prop in H as [Hev Htr]. rewrite (IH Htr).
  destruct ev as [| [] | | | | |]; try discriminate; reflexivity.
Qed.

Lemma lookups_quiet w tr api_key riot_id val_domain puuid matches :
  lookups w = (tr, Next (api_key, riot_id, val_domain, puuid, matches)) ->
  existsb is_report_line tr = false.
Proof.
  intros H. apply lookups_next_inv in H as (tr0 & Hres & _ & _ & ->).
  apply resolve_next_inv in Hres as (g & tg & acct & region & _ & _ & _ & _ & _ & ->).
  reflexivity.
Qed.

(** C5: when the detail request of a match of the capped list fails (in
    transport, by a 4xx or 5xx status, or by an undecodable body), that
    iteration logs the failure and leaves the totals as they were; the run
    goes on with the remaining matches from those totals and then with the
    report, which is printed whenever the remaining matches raise nothing
    and the KDA is representable. *)
Theorem failed_detail_fetch_skips_one_match (w : world)
    tr0 api_key riot_id val_domain puuid matches pre match_item post tr1 t1 match_id e :
  lookups w = (tr0, Next (api_key, riot_id, val_domain, puuid, matches)) ->
  py_iter matches = Val (pre ++ match_item :: post) ->
  for_matches w api_key val_domain puuid 3 pre no_totals = (tr1, Next t1) ->
  py_getitem match_item (JStr "matchId") = Val match_id ->
  decode (server w (3 + length pre) (MatchById val_domain match_id)) = Exc e ->
  let skipped := [HttpGet (MatchById val_domain match_id) api_key; StdoutSkip match_id e] in
  process_match w api_key val_domain puuid (3 + length pre) match_item t1 = (skipped, Next t1) /\
  main w = after (tr0 ++ tr1 ++ skipped)
             (do t2 <- for_matches w api_key val_domain puuid (4 + length pre) post t1;
              report riot_id t2 matches) /\
  (forall tr2 t2 kda,
     for_matches w api_key val_domain puuid (4 + length pre) post t1 = (tr2, Next t2) ->
     kda_of t2 = Val kda ->
     exists win_rate,
       main w = (tr0 ++ tr1 ++ skipped ++ tr2 ++ report_lines riot_id kda win_rate, Next tt)).
Proof.
  intros Hlook Hit Hpre Hid Hfail skipped.
  assert (Hstep : process_match w api_key val_domain puuid (3 + length pre) match_item t1
                  = (skipped, Next t1)).
  { rewrite process_match_eq, Hid. cbv zeta. rewrite Hfail. reflexivity. }
  assert (Hmain : main w = after (tr0 ++ tr1 ++ skipped)
             (do t2 <- for_matches w api_key val_domain puuid (4 + length pre) post t1;
              report riot_id t2 matches)).
  { rewrite (main_from_item _ _ _ _ _ _ _ _ _ _ _ _ Hlook Hit Hpre).
    rewrite (bind_next_after _ _ _ _ Hstep), after_after, <- app_assoc. reflexivity. }
  split; [exact Hstep|]. split; [exact Hmain|].
  intros tr2 t2 kda Hrest Hkda.
  assert (Hcollect : exists tr, collect w = (tr, Next (riot_id, t2, matches))).
  { unfold collect. rewrite (bind_next_after _ _ _ _ Hlook). cbv beta iota.
    rewrite Hit. change (lift (Val (pre ++ match_item :: post))) with (ret (pre ++ match_item :: post)).
    rewrite bind_ret, for_matches_app, bind_assoc, (bind_next_after _ _ _ _ Hpre).
    cbn [for_matches]. rewrite bind_assoc, (bind_next_after _ _ _ _ Hstep).
    change (S (3 + length pre)) with (4 + length pre)%nat.
    rewrite (bind_next_after _ _ _ _ Hrest). unfold after, ret. simpl. eauto. }
  destruct Hcollect as [tr Hcollect].
  destruct (win_rate_defined _ _ _ _ _ Hcollect) as (q & _ & Hwr).
  exists (py_mul_int q 100).
  rewrite Hmain, (bind_next_after _ _ _ _ Hrest), after_after, report_eq, Hkda, Hwr.
  unfold after. simpl. rewrite <- !app_assoc. reflexivity.
Qed.

Lemma failed_detail_fetch_witness :
  process_match Sample.played "RGAPI-0000" americas Sample.me 4 (Sample.item "m2")
    Sample.after_first
  = ([HttpGet (MatchById americas (JStr "m2")) "RGAPI-0000";
      StdoutSkip (JStr "m2") (HTTPError 500)], Next Sample.after_first)
  /\ existsb is_report_line (trace (main Sample.played)) = true.
Proof.
  split; [|vm_compute; reflexivity].
  refine (proj1
    (failed_detail_fetch_skips_one_match Sample.played
       (trace (lookups Sample.played)) "RGAPI-0000" "Player#NA1" americas Sample.me
       Sample.played_matches [Sample.item "m1"] (Sample.item "m2")
       [Sample.item "m3"; Sample.item "m4"; Sample.item "m5"]
       [HttpGet (MatchById americas (JStr "m1")) "RGAPI-0000"] Sample.after_first
       (JStr "m2") (HTTPError 500) _ _ _ _ _));
    vm_compute; reflexivity.
Defined.

(** ** The participant search *)

Lemma first_player_skips puuid pre rest :
  forallb (is_other puuid) pre = true ->
  first_player (pre ++ rest) puuid = first_player rest puuid.
Proof.
  induction pre as [|p pre IH]; [reflexivity|]. simpl.
  intros H. apply andb_prop in H as [Hp Hpre]. unfold is_other in Hp.
  destruct (py_getitem p (JStr "puuid")) as [v|e]; [|discriminate].
  destruct (py_eq v puuid); [discriminate|]. apply IH. exact Hpre.
Qed.

Lemma first_player_none puuid players found :
  existsb (is_caller puuid) players = false ->
  first_player players puuid = Val found -> found = None.
Proof.
  induction players as [|p players IH]; simpl.
  - intros _ [= <-]. reflexivity.
  - intros H. apply orb_false_elim in H as [Hp Hrest]. unfold is_caller in Hp.
    destruct (py_getitem p (JStr "puuid")) as [v|e]; [|discriminate].
    rewrite Hp. apply IH. exact Hrest.
Qed.


Lemma caller_is_truthy puuid p : is_caller puuid p = true -> py_truthy p = true.
Proof.
  unfold is_caller. destruct p as [| | |s|l|d]; simpl; try discriminate.
  destruct d; [discriminate|reflexivity].
Qed.

(** C6: for a match that was fetched, (a) a participant list that is
    absent, empty, or made of entries that all carry another account id
    leaves the totals as they were, the request having been made; (b) with
    no entry carrying the caller's id the iteration never hands on changed
    totals, whatever else the list holds; (c) when an entry carries the
    caller's id after entries that carry other ids, that first entry is the
    one aggregated; (d) the length of the match list, the divisor of the
    win rate, counts every request made, whether or not its match
    contributed. *)
Theorem absent_caller_leaves_totals (w : world)
    api_key val_domain puuid n match_item match_id match_data players_list t :
  py_getitem match_item (JStr "matchId") = Val match_id ->
  decode (server w n (MatchById val_domain match_id)) = Val match_data ->
  py_get match_data "players" (JArr []) = Val players_list ->
  ((py_truthy players_list = false \/
    exists players, players_list = JArr players /\ forallb (is_other puuid) players = true) ->
   process_match w api_key val_domain puuid n match_item t =
     ([HttpGet (MatchById val_domain match_id) api_key], Next t)) /\
  (forall players tr t',
     players_list = JArr players -> existsb (is_caller puuid) players = false ->
     process_match w api_key val_domain puuid n match_item t = (tr, Next t') -> t' = t) /\
  (forall pre p post,
     players_list = JArr (pre ++ p :: post) ->
     forallb (is_other puuid) pre = true -> is_caller puuid p = true ->
     find_player players_list puuid = Val (Some p) /\
     aggregate t puuid match_data = add_player t p match_data) /\
  (forall tr riot_id t' matches,
     collect w = (tr, Next (riot_id, t', matches)) ->
     py_len matches = Z.of_nat (detail_calls tr)).
Proof.
  intros Hid Hfetch Hplayers.
  assert (Hstep : process_match w api_key val_domain puuid n match_item t =
            ([HttpGet (MatchById val_domain match_id) api_key],
             match aggregate t puuid match_data with
             | Val t' => Next t'
             | Exc e => Raised e
             end)).
  { rewrite process_match_eq, Hid. cbv zeta. rewrite Hfetch. reflexivity. }
  assert (Hagg : aggregate t puuid match_data =
            if negb (py_truthy players_list) then Val t
            else res_bind (find_player players_list puuid) (fun found =>
                   match found with
                   | None => Val t
                   | Some player_data =>
                       if negb (py_truthy player_data) then Val t
                       else add_player t player_data match_data
                   end)).
  { unfold aggregate. rewrite Hplayers. reflexivity. }
  split; [|split; [|split]].
  - intros [Hempty | (players & -> & Hothers)].
    + rewrite Hstep, Hagg, Hempty. reflexivity.
    + rewrite Hstep, Hagg. destruct (negb (py_truthy (JArr players))); [reflexivity|].
      unfold find_player. simpl py_iter. cbn [res_bind].
      rewrite <- (app_nil_r players), (first_player_skips _ _ _ Hothers). reflexivity.
  - intros players tr t' -> Hnone. rewrite Hstep, Hagg.
    destruct (negb (py_truthy (JArr players))); [intros [= _ <-]; reflexivity|].
    unfold find_player. simpl py_iter. cbn [res_bind].
    destruct (first_player players puuid) as [found|e] eqn:Hfound; [|discriminate].
    rewrite (first_player_none _ _ _ Hnone Hfound). intros [= _ <-]. reflexivity.
  - intros pre p post -> Hpre Hp.
    assert (Hfound : find_player (JArr (pre ++ p :: post)) puuid = Val (Some p)).
    { unfold find_player. simpl py_iter. cbn [res_bind].
      rewrite (first_player_skips _ _ _ Hpre). cbn [first_player].
      unfold is_caller in Hp.
      destruct (py_getitem p (JStr "puuid")) as [v|e]; [|discriminate].
      rewrite Hp. reflexivity. }
    split; [exact Hfound|].
    rewrite Hagg, Hfound.
    replace (py_truthy (JArr (pre ++ p :: post))) with true
      by (destruct pre; reflexivity).
    cbn [negb res_bind]. rewrite (caller_is_truthy _ _ Hp). reflexivity.
  - intros tr riot_id t' matches Hc. apply (collect_counts _ _ _ _ _ Hc).
Qed.

Lemma absent_caller_witness :
  process_match Sample.played "RGAPI-0000" americas Sample.me 7 (Sample.item "m5")
    Sample.played_totals
  = ([HttpGet (MatchById americas (JStr "m5")) "RGAPI-0000"], Next Sample.played_totals).
Proof.
  refine (proj1
    (absent_caller_leaves_totals Sample.played "RGAPI-0000" americas Sample.me 7
       (Sample.item "m5") (JStr "m5") Sample.stranger_body
       (JArr [Sample.player "other" "Red" 4 4 4]) Sample.played_totals _ _ _) _).
  - reflexivity.
  - reflexivity.
  - reflexivity.
  - right. exists [Sample.player "other" "Red" 4 4 4]. split; reflexivity.
Defined.

(** C9: when a fetched match lists, before any entry carrying the caller's
    account id, an entry without the [puuid] key, the participant search
    raises ([KeyError] for an object, [TypeError] otherwise); nothing
    handles it, so the run ends there with the exception and prints no
    report. *)
Theorem malformed_participant_aborts_the_run (w : world)
    tr0 api_key riot_id val_domain puuid matches pre_items match_item post_items tr1 t1
    match_id match_data pre bad post :
  lookups w = (tr0, Next (api_key, riot_id, val_domain, puuid, matches)) ->
  py_iter matches = Val (pre_items ++ match_item :: post_items) ->
  for_matches w api_key val_domain puuid 3 pre_items no_totals = (tr1, Next t1) ->
  py_getitem match_item (JStr "matchId") = Val match_id ->
  decode (server w (3 + length pre_items) (MatchById val_domain match_id)) = Val match_data ->
  py_get match_data "players" (JArr []) = Val (JArr (pre ++ bad :: post)) ->
  forallb (is_other puuid) pre = true ->
  has_field bad "puuid" = false ->
  exists e, (e = KeyError \/ e = TypeError) /\
    find_player (JArr (pre ++ bad :: post)) puuid = Exc e /\
    main w = (tr0 ++ tr1 ++ [HttpGet (MatchById val_domain match_id) api_key], Raised e) /\
    existsb is_report_line (trace (main w)) = false.
Proof.
  intros Hlook Hit Hpre Hid Hfetch Hplayers Hothers Hbad.
  destruct (missing_field_raises _ _ Hbad) as (e & He & Hkind).
  assert (Hfind : find_player (JArr (pre ++ bad :: post)) puuid = Exc e).
  { unfold find_player. simpl py_iter. cbn [res_bind].
    rewrite (first_player_skips _ _ _ Hothers). cbn [first_player].
    rewrite He. reflexivity. }
  assert (Hstep : process_match w api_key val_domain puuid (3 + length pre_items) match_item t1
                  = ([HttpGet (MatchById val_domain match_id) api_key], Raised e)).
  { rewrite process_match_eq, Hid. cbv zeta. rewrite Hfetch.
    unfold aggregate. rewrite Hplayers. cbn [res_bind].
    replace (py_truthy (JArr (pre ++ bad :: post))) with true
      by (destruct pre; reflexivity).
    cbn [negb]. rewrite Hfind. reflexivity. }
  assert (Hmain : main w =
            (tr0 ++ tr1 ++ [HttpGet (MatchById val_domain match_id) api_key], Raised e)).
  { rewrite (main_from_item _ _ _ _ _ _ _ _ _ _ _ _ Hlook Hit Hpre).
    rewrite (bind_raised _ _ _ _ Hstep). unfold after. simpl.
    rewrite <- app_assoc. reflexivity. }
  exists e. split; [exact Hkind|]. split; [exact Hfind|]. split; [exact Hmain|].
  rewrite Hmain. unfold trace. cbn [fst]. rewrite !existsb_app.
  rewrite (lookups_quiet _ _ _ _ _ _ _ Hlook).
  pose proof (for_matches_trace w api_key val_domain puuid pre_items 3 no_totals) as Hloop.
  rewrite Hpre in Hloop. unfold trace in Hloop. cbn [fst] in Hloop.
  rewrite (loop_event_not_report _ Hloop). reflexivity.
Qed.

Lemma malformed_participant_witness :
  exists e, (e = KeyError \/ e = TypeError) /\
    find_player
      (JArr ([Sample.player "other" "Blue" 1 1 1] ++
             JObj [("name", JStr "ghost")] :: [Sample.player "puuid-7" "Red" 1 1 1]))
      Sample.me = Exc e /\
    main Sample.broken_roster =
      (trace (lookups Sample.broken_roster) ++
       [HttpGet (MatchById americas (JStr "m1")) "RGAPI-0000";
        HttpGet (MatchById americas (JStr "m2")) "RGAPI-0000";
        StdoutSkip (JStr "m2") (HTTPError 500)] ++
       [HttpGet (MatchById americas (JStr "m3")) "RGAPI-0000"], Raised e) /\
    existsb is_report_line (trace (main Sample.broken_roster)) = false.
Proof.
  apply (malformed_participant_aborts_the_run Sample.broken_roster
           (trace (lookups Sample.broken_roster)) "RGAPI-0000" "Player#NA1" americas
           Sample.me Sample.played_matches
           [Sample.item "m1"; Sample.item "m2"] (Sample.item "m3")
           [Sample.item "m4"; Sample.item "m5"]
           [HttpGet (MatchById americas (JStr "m1")) "RGAPI-0000";
            HttpGet (MatchById americas (JStr "m2")) "RGAPI-0000";
            StdoutSkip (JStr "m2") (HTTPError 500)]
           Sample.after_first (JStr "m3") Sample.broken_body);
    vm_compute; reflexivity.
Defined.

(** ** The shard table *)

Lemma no_warning_bind {A B} (m : proc A) (f : A -> proc B) :
  existsb is_shard_warning (trace m) = false ->
  (forall a, existsb is_shard_warning (trace (f a)) = false) ->
  existsb is_shard_warning (trace (bind m f)) = false.
Proof.
  intros Hm Hf. destruct m as [tr [a| |e]]; simpl in *; try exact Hm.
  specialize (Hf a). destruct (f a) as [tr' c]. simpl in *.
  rewrite existsb_app, Hm, Hf. reflexivity.
Qed.

Lemma no_warning_lift {A} (r : res A) :
  existsb is_shard_warning (trace (lift r)) = false.
Proof. destruct r; reflexivity. Qed.

Lemma no_warning_in_loop w api_key val_domain puuid n items t :
  existsb is_shard_warning (trace (for_matches w api_key val_domain puuid n items t)) = false.
Proof.
  pose proof (for_matches_trace w api_key val_domain puuid items n t) as H.
  induction (trace (for_matches w api_key val_domain puuid n items t)) as [|ev tr IH];
    [reflexivity|].
  simpl in *. apply andb_prop in H as [Hev Htr]. rewrite (IH Htr).
  destruct ev; try discriminate; reflexivity.
Qed.

Lemma no_warning_ret {A} (a : A) :
  existsb is_shard_warning (trace (ret a)) = false.
Proof. reflexivity. Qed.

Lemma no_warning_read_identity w :
  existsb is_shard_warning (trace (read_identity w)) = false.
Proof.
  unfold read_identity. destruct (getenv_key w) as [k|]; [|reflexivity].
  destruct (String.eqb k ""); [reflexivity|].
  destruct (split hash (strip (stdin_line w))) as [|g [|tg [|x rest]]]; reflexivity.
Qed.

Lemma no_warning_fetch_puuid w api_key game_name tag_line :
  existsb is_shard_warning (trace (fetch_puuid w api_key game_name tag_line)) = false.
Proof.
  rewrite fetch_puuid_eq. cbv zeta.
  destruct (res_bind _ _) as [[acct p]|e]; reflexivity.
Qed.

Lemma no_warning_fetch_shard w api_key puuid :
  existsb is_shard_warning (trace (fetch_shard w api_key puuid)) = false.
Proof. rewrite fetch_shard_eq. cbv zeta. destruct (res_bind _ _); reflexivity. Qed.

Lemma no_warning_resolve_domain actual_region :
  existsb is_shard_warning (trace (resolve_domain actual_region)) = false.
Proof. rewrite resolve_domain_eq. reflexivity. Qed.

Lemma no_warning_fetch_matches w api_key val_domain puuid :
  existsb is_shard_warning (trace (fetch_matches w api_key val_domain puuid)) = false.
Proof.
  rewrite fetch_matches_eq. cbv zeta.
  destruct (res_bind _ _) as [m|e]; [|reflexivity].
  destruct (py_truthy m); reflexivity.
Qed.

Lemma no_warning_report riot_id t matches :
  existsb is_shard_warning (trace (report riot_id t matches)) = false.
Proof.
  rewrite report_eq. destruct (kda_of t); [|reflexivity].
  destruct (win_rate_of t matches); reflexivity.
Qed.

Create HintDb no_warning.
#[local] Hint Resolve no_warning_ret no_warning_lift no_warning_in_loop
  no_warning_read_identity no_warning_fetch_puuid no_warning_fetch_shard
  no_warning_resolve_domain no_warning_fetch_matches no_warning_report : no_warning.

Ltac open_tuples :=
  repeat match goal with x : (_ * _)%type |- _ => destruct x end; cbv beta iota.

(** No run, in any world, prints the unknown-shard warning. *)
Lemma warning_never_printed w :
  existsb is_shard_warning (trace (main w)) = false.
Proof.
  unfold main, collect, lookups, resolve.
  repeat first
    [ solve [auto with no_warning]
    | apply no_warning_bind; [|intros; open_tuples] ].
Qed.

(** C1 (what the code does): no run prints the unknown-shard warning, and
    resolving the host prints nothing whatever the shard code; a string
    code outside the table resolves to the americas host and the run goes
    on.  In the sample run with shard code [xx] the match list is requested
    from the americas host and the run ends with its report. *)
Theorem unknown_shard_prints_no_warning :
  (forall w, existsb is_shard_warning (trace (main w)) = false) /\
  (forall code, trace (resolve_domain code) = []) /\
  (forall s, region_map !! s = None -> resolve_domain (JStr s) = ([], Next americas)) /\
  region_map !! "xx" = None /\
  In (HttpGet (MatchList americas Sample.me) "RGAPI-0000") (trace (main Sample.far_shard)) /\
  outcome (main Sample.far_shard) = Next tt.
Proof.
  split; [|split; [|split; [|split; [|split]]]].
  - exact warning_never_printed.
  - intros code. rewrite resolve_domain_eq. reflexivity.
  - intros s Hs. rewrite resolve_domain_eq. simpl. rewrite Hs. reflexivity.
  - vm_compute. reflexivity.
  - vm_compute. tauto.
  - vm_compute. reflexivity.
Qed.

(** * Further properties of [main] *)

(** ** Splitting and joining *)

Lemma append_empty s : s +:+ "" = s.
Proof.
  induction s as [|c s IH]; [reflexivity|].
  change (String c (s +:+ "") = String c s). rewrite IH. reflexivity.
Qed.

Lemma join_split sep s : join sep (split sep s) = s.
Proof.
  induction s as [|c s IH]; [reflexivity|]. cbn [split].
  pose proof (length_split sep s) as Hlen.
  destruct (split sep s) as [|p ps]; [discriminate Hlen|].
  destruct (Ascii.eqb_spec c sep) as [->|_].
  - change (String sep (join sep (p :: ps)) = String sep s). rewrite IH. reflexivity.
  - change (String c (join sep (p :: ps)) = String c s). rewrite IH. reflexivity.
Qed.

Lemma split_parts_clean sep s : Forall (fun p => count sep p = O) (split sep s).
Proof.
  induction s as [|c s IH]; simpl; [repeat constructor|].
  destruct (Ascii.eqb c sep) eqn:Hc; [constructor; [reflexivity | exact IH]|].
  destruct (split sep s) as [|p ps]; [repeat constructor; simpl; rewrite Hc; reflexivity|].
  inversion IH as [|? ? Hp Hps]; subst. constructor; [|exact Hps].
  simpl. rewrite Hc. exact Hp.
Qed.

Lemma trace_bind_prefix {A B} (m : proc A) (f : A -> proc B) :
  exists rest, trace (bind m f) = trace m ++ rest.
Proof.
  destruct m as [tr [a| |e]]; simpl.
  - destruct (f a) as [tr' c]. exists tr'. reflexivity.
  - exists []. rewrite app_nil_r. reflexivity.
  - exists []. rewrite app_nil_r. reflexivity.
Qed.

Ltac peel_trace :=
  match goal with
  | |- context [trace (bind ?m ?f)] =>
      let r := fresh "r" in destruct (trace_bind_prefix m f) as [r ->]
  end.

(** X1: with no credential, or an empty one, the run prints that the key
    is missing and returns at once: it does not prompt and makes no
    request. *)
Theorem missing_credential_stops_at_once (w : world) :
  getenv_key w = None \/ getenv_key w = Some "" ->
  main w = ([Stdout "Missing RIOT_API_KEY in .env file."], Returned).
Proof.
  intros H. unfold main, collect, lookups, resolve, read_identity.
  destruct H as [-> | ->]; reflexivity.
Qed.

Lemma missing_credential_witness :
  main Sample.no_key = ([Stdout "Missing RIOT_API_KEY in .env file."], Returned).
Proof.
  apply (missing_credential_stops_at_once Sample.no_key). left. reflexivity.
Defined.

(** X2: with a credential, a line holding exactly one [#] is accepted
    whatever surrounds the separator: the stripped line is the name, a [#]
    and the tag, neither of which holds a [#] (either may be empty), and
    the first request of the run is the account lookup for that name and
    tag, sent right after the prompt. *)
Theorem one_separator_reaches_account_lookup (w : world) (api_key : string) :
  getenv_key w = Some api_key ->
  api_key <> "" ->
  count hash (stdin_line w) = 1%nat ->
  exists game_name tag_line rest,
    strip (stdin_line w) = game_name +:+ String hash tag_line /\
    count hash game_name = O /\ count hash tag_line = O /\
    read_identity w =
      ([Prompt prompt], Next (api_key, strip (stdin_line w), game_name, tag_line)) /\
    trace (main w) =
      Prompt prompt :: HttpGet (AccountByRiotId game_name tag_line) api_key :: rest.
Proof.
  intros Hkey Hne Hcount.
  pose proof (length_split hash (strip (stdin_line w))) as Hlen.
  pose proof (join_split hash (strip (stdin_line w))) as Hjoin.
  pose proof (split_parts_clean hash (strip (stdin_line w))) as Hclean.
  rewrite count_strip, Hcount in Hlen.
  destruct (split hash (strip (stdin_line w))) as [|g [|t [|x more]]] eqn:Hsplit;
    try discriminate Hlen.
  inversion Hclean as [|? ? Hg Hrest]; subst. inversion Hrest as [|? ? Ht _]; subst.
  assert (Hid : read_identity w =
            ([Prompt prompt], Next (api_key, strip (stdin_line w), g, t))).
  { unfold read_identity. rewrite Hkey.
    destruct (String.eqb_spec api_key "") as [->|_]; [contradiction|].
    rewrite Hsplit. reflexivity. }
  exists g, t.
  assert (Htrace : exists rest, trace (main w) =
            Prompt prompt :: HttpGet (AccountByRiotId g t) api_key :: rest).
  { unfold main, collect, lookups. do 3 peel_trace.
    unfold resolve. rewrite (bind_next _ _ _ _ Hid). cbv beta iota.
    unfold trace at 1. cbn [fst]. peel_trace.
    rewrite fetch_puuid_eq. cbv zeta.
    destruct (res_bind _ _) as [[acct p]|e]; unfold trace; simpl; eauto. }
  destruct Htrace as [rest Htrace]. exists rest.
  cbn [join join_tail] in Hjoin. rewrite append_empty in Hjoin.
  repeat split; auto.
Qed.

Lemma one_separator_witness :
  exists game_name tag_line rest,
    strip (stdin_line Sample.lone_hash) = game_name +:+ String hash tag_line /\
    count hash game_name = O /\ count hash tag_line = O /\
    read_identity Sample.lone_hash =
      ([Prompt prompt],
       Next ("RGAPI-0000", strip (stdin_line Sample.lone_hash), game_name, tag_line)) /\
    trace (main Sample.lone_hash) =
      Prompt prompt :: HttpGet (AccountByRiotId game_name tag_line) "RGAPI-0000" :: rest.
Proof.
  apply (one_separator_reaches_account_lookup Sample.lone_hash "RGAPI-0000").
  - reflexivity.
  - discriminate.
  - reflexivity.
Defined.

(** ** Failures of the shard and match-list lookups *)

Lemma resolve_after_account w tr api_key riot_id game_name tag_line account_data puuid :
  read_identity w = (tr, Next (api_key, riot_id, game_name, tag_line)) ->
  decode (server w 0 (AccountByRiotId game_name tag_line)) = Val account_data ->
  py_getitem account_data (JStr "puuid") = Val puuid ->
  resolve w =
    after (tr ++ [HttpGet (AccountByRiotId game_name tag_line) api_key;
                  StdoutValue "ACCOUNT DATA:" account_data])
      (do actual_region <- fetch_shard w api_key puuid;
       do val_domain <- resolve_domain actual_region;
       ret (api_key, riot_id, val_domain, puuid)).
Proof.
  intros Hid Hacct Hpuuid. unfold resolve.
  rewrite (bind_next_after _ _ _ _ Hid). cbv beta iota.
  rewrite fetch_puuid_eq. cbv zeta. rewrite Hacct. cbn [res_bind]. rewrite Hpuuid.
  cbn [res_bind]. rewrite (bind_next_after _ _ _ _ eq_refl), after_after. reflexivity.
Qed.

(** X3: once the account id is known, any failure of the shard lookup (in
    transport, by status, by an undecodable body or by a body without
    [activeShard]) is reported by the shard handler and ends the run after
    exactly these two requests, the second carrying the account id the
    first answered. *)
Theorem shard_lookup_failure_is_terminal (w : world)
    tr api_key riot_id game_name tag_line account_data puuid e :
  read_identity w = (tr, Next (api_key, riot_id, game_name, tag_line)) ->
  decode (server w 0 (AccountByRiotId game_name tag_line)) = Val account_data ->
  py_getitem account_data (JStr "puuid") = Val puuid ->
  res_bind (decode (server w 1 (ActiveShard puuid)))
    (fun data => py_getitem data (JStr "activeShard")) = Exc e ->
  main w = (tr ++ [HttpGet (AccountByRiotId game_name tag_line) api_key;
                   StdoutValue "ACCOUNT DATA:" account_data;
                   HttpGet (ActiveShard puuid) api_key;
                   StdoutError "Error fetching active shard: " e], Returned).
Proof.
  intros Hid Hacct Hpuuid Hshard. apply main_stops_in_resolve.
  rewrite (resolve_after_account _ _ _ _ _ _ _ _ Hid Hacct Hpuuid).
  rewrite fetch_shard_eq. cbv zeta. rewrite Hshard.
  unfold after. simpl. rewrite <- app_assoc. reflexivity.
Qed.

Lemma shard_lookup_failure_witness :
  main Sample.shard_down =
    ([Prompt prompt] ++
     [HttpGet (AccountByRiotId "Player" "NA1") "RGAPI-0000";
      StdoutValue "ACCOUNT DATA:"
        (JObj [("puuid", Sample.me); ("gameName", JStr "Player"); ("tagLine", JStr "NA1")]);
      HttpGet (ActiveShard Sample.me) "RGAPI-0000";
      StdoutError "Error fetching active shard: " (HTTPError 503)], Returned).
Proof.
  apply (shard_lookup_failure_is_terminal Sample.shard_down [Prompt prompt]
           "RGAPI-0000" "Player#NA1" "Player" "NA1"); reflexivity.
Defined.

Lemma main_stops_in_fetch_matches w tr0 api_key riot_id val_domain puuid tr :
  resolve w = (tr0, Next (api_key, riot_id, val_domain, puuid)) ->
  fetch_matches w api_key val_domain puuid = (tr, Returned) ->
  main w = (tr0 ++ tr, Returned).
Proof.
  intros Hres Hm. apply main_stops_in_lookups. unfold lookups.
  rewrite (bind_next _ _ _ _ Hres). cbv beta iota. rewrite Hm. reflexivity.
Qed.

(** X4: once the host is resolved, any failure of the match-list lookup
    (in transport, by status, by an undecodable body, by a body that is not
    an object, or by a history that cannot be sliced) is reported by the
    match-list handler and ends the run, three requests having been made
    and no report printed. *)
Theorem match_list_failure_is_terminal (w : world)
    tr0 api_key riot_id val_domain puuid e :
  resolve w = (tr0, Next (api_key, riot_id, val_domain, puuid)) ->
  res_bind (decode (server w 2 (MatchList val_domain puuid))) capped_history = Exc e ->
  main w = (tr0 ++ [HttpGet (MatchList val_domain puuid) api_key;
                    StdoutError "Error fetching match history: " e], Returned) /\
  http_calls (trace (main w)) = 3%nat /\
  existsb is_report_line (trace (main w)) = false.
Proof.
  intros Hres Hfail.
  assert (Hmain : main w = (tr0 ++ [HttpGet (MatchList val_domain puuid) api_key;
                    StdoutError "Error fetching match history: " e], Returned)).
  { apply main_stops_in_lookups. unfold lookups.
    rewrite (bind_next _ _ _ _ Hres). cbv beta iota.
    rewrite fetch_matches_eq. cbv zeta. rewrite Hfail. reflexivity. }
  split; [exact Hmain|]. rewrite Hmain.
  apply resolve_next_inv in Hres as (g & tg & acct & region & _ & _ & _ & _ & _ & ->).
  split; reflexivity.
Qed.

Lemma match_list_failure_witness :
  main Sample.null_history =
    (trace (resolve Sample.null_history) ++
     [HttpGet (MatchList americas Sample.me) "RGAPI-0000";
      StdoutError "Error fetching match history: " TypeError], Returned) /\
  http_calls (trace (main Sample.null_history)) = 3%nat /\
  existsb is_report_line (trace (main Sample.null_history)) = false.
Proof.
  apply (match_list_failure_is_terminal Sample.null_history
           (trace (resolve Sample.null_history)) "RGAPI-0000" "Player#NA1"
           americas Sample.me TypeError); vm_compute; reflexivity.
Defined.

(** X5: the default of [data.get("history", [])] applies to an absent key
    only.  A match-list object without [history] ends the run with "No
    matches found.", while one whose [history] is [null], a boolean or a
    number ends it with the match-list error message carrying a
    [TypeError]. *)
Theorem null_history_is_an_error_not_empty (w : world)
    tr0 api_key riot_id val_domain puuid fields :
  resolve w = (tr0, Next (api_key, riot_id, val_domain, puuid)) ->
  decode (server w 2 (MatchList val_domain puuid)) = Val (JObj fields) ->
  (dict_get "history" fields = None ->
   main w = (tr0 ++ [HttpGet (MatchList val_domain puuid) api_key;
                     Stdout "No matches found."], Returned)) /\
  (forall history,
     dict_get "history" fields = Some history ->
     is_hashable history = true -> (forall s, history <> JStr s) ->
     main w = (tr0 ++ [HttpGet (MatchList val_domain puuid) api_key;
                       StdoutError "Error fetching match history: " TypeError], Returned)).
Proof.
  intros Hres Hdata.
  pose proof (fetch_matches_eq w api_key val_domain puuid) as Hm. cbv zeta in Hm.
  rewrite Hdata in Hm. unfold capped_history in Hm. cbn [res_bind py_get] in Hm.
  split.
  - intros Hnone. rewrite Hnone in Hm. cbn in Hm.
    apply (main_stops_in_fetch_matches _ _ _ _ _ _ _ Hres Hm).
  - intros history Hsome Hhash Hstr. rewrite Hsome in Hm.
    destruct history as [| | |s| |]; try discriminate Hhash;
      try (contradiction (Hstr s); reflexivity);
      cbn in Hm; apply (main_stops_in_fetch_matches _ _ _ _ _ _ _ Hres Hm).
Qed.

Lemma null_history_witness :
  main Sample.null_history =
    (trace (resolve Sample.null_history) ++
     [HttpGet (MatchList americas Sample.me) "RGAPI-0000";
      StdoutError "Error fetching match history: " TypeError], Returned).
Proof.
  refine (proj2
    (null_history_is_an_error_not_empty Sample.null_history
       (trace (resolve Sample.null_history)) "RGAPI-0000" "Player#NA1" americas Sample.me
       [("puuid", Sample.me); ("history", JNull)] _ _) JNull _ _ _).
  - vm_compute. reflexivity.
  - reflexivity.
  - reflexivity.
  - reflexivity.
  - intros s. discriminate.
Defined.

(** ** What each step can do, whatever the world *)


Lemma read_identity_cases w :
  (exists api_key game_name tag_line,
     getenv_key w = Some api_key /\
     read_identity w =
       ([Prompt prompt], Next (api_key, strip (stdin_line w), game_name, tag_line))) \/
  read_identity w = ([Stdout "Missing RIOT_API_KEY in .env file."], Returned) \/
  read_identity w = ([Prompt prompt; Stdout format_error], Returned).
Proof.
  unfold read_identity. destruct (getenv_key w) as [k|]; [|auto].
  destruct (String.eqb k ""); [auto|].
  destruct (split hash (strip (stdin_line w))) as [|g [|tg [|x rest]]]; auto.
  left. exists k, g, tg. auto.
Qed.

Lemma fetch_puuid_cases w api_key game_name tag_line :
  (exists account_data puuid,
     fetch_puuid w api_key game_name tag_line =
       ([HttpGet (AccountByRiotId game_name tag_line) api_key;
         StdoutValue "ACCOUNT DATA:" account_data], Next puuid)) \/
  (exists e,
     fetch_puuid w api_key game_name tag_line =
       ([HttpGet (AccountByRiotId game_name tag_line) api_key;
         StdoutError "Error fetching PUUID: " e], Returned)).
Proof.
  rewrite fetch_puuid_eq. cbv zeta. destruct (res_bind _ _) as [[acct p]|e]; eauto.
Qed.

Lemma fetch_shard_cases w api_key puuid :
  (exists actual_region,
     fetch_shard w api_key puuid =
       ([HttpGet (ActiveShard puuid) api_key;
         StdoutValue "ACTIVE SHARD:" actual_region], Next actual_region)) \/
  (exists e,
     fetch_shard w api_key puuid =
       ([HttpGet (ActiveShard puuid) api_key;
         StdoutError "Error fetching active shard: " e], Returned)).
Proof. rewrite fetch_shard_eq. cbv zeta. destruct (res_bind _ _); eauto. Qed.

Lemma fetch_matches_cases w api_key val_domain puuid :
  (exists data matches,
     capped_history data = Val matches /\ py_truthy matches = true /\
     fetch_matches w api_key val_domain puuid =
       ([HttpGet (MatchList val_domain puuid) api_key], Next matches)) \/
  (exists ev,
     fetch_matches w api_key val_domain puuid =
       ([HttpGet (MatchList val_domain puuid) api_key; ev], Returned) /\
     is_http_get ev = false /\ is_report_line ev = false).
Proof.
  rewrite fetch_matches_eq. cbv zeta.
  destruct (decode _) as [data|e]; cbn [res_bind]; [|right; eexists; repeat split].
  destruct (capped_history data) as [m|e] eqn:Hcap; [|right; eexists; repeat split].
  destruct (py_truthy m) eqn:Ht; [left; eauto | right; eexists; repeat split].
Qed.




(** X7: an entry of the capped match list without a [matchId] (or one that
    is not an object) is not skipped: reading the id raises outside any
    [try], so the run ends there with a [KeyError] or [TypeError], having
    made no request for that entry or any later one and printing no
    report. *)
Theorem match_entry_without_id_aborts (w : world)
    tr0 api_key riot_id val_domain puuid matches pre match_item post tr1 t1 :
  lookups w = (tr0, Next (api_key, riot_id, val_domain, puuid, matches)) ->
  py_iter matches = Val (pre ++ match_item :: post) ->
  for_matches w api_key val_domain puuid 3 pre no_totals = (tr1, Next t1) ->
  has_field match_item "matchId" = false ->
  exists e, (e = KeyError \/ e = TypeError) /\
    main w = (tr0 ++ tr1, Raised e) /\
    detail_calls (trace (main w)) = length pre /\
    existsb is_report_line (trace (main w)) = false.
Proof.
  intros Hlook Hit Hpre Hbad.
  destruct (missing_field_raises _ _ Hbad) as (e & He & Hkind).
  assert (Hmain : main w = (tr0 ++ tr1, Raised e)).
  { rewrite (main_from_item _ _ _ _ _ _ _ _ _ _ _ _ Hlook Hit Hpre).
    rewrite process_match_eq, He. unfold after. simpl. rewrite app_nil_r. reflexivity. }
  exists e. split; [exact Hkind|]. split; [exact Hmain|]. rewrite Hmain.
  unfold trace. cbn [fst]. split.
  - rewrite detail_calls_app.
    destruct (for_matches_next _ _ _ _ _ _ _ _ _ Hpre) as [-> _].
    apply lookups_next_inv in Hlook as (tr' & Hres & _ & _ & ->).
    apply resolve_next_inv in Hres as (g & tg & acct & region & _ & _ & _ & _ & _ & ->).
    reflexivity.
  - rewrite existsb_app, (lookups_quiet _ _ _ _ _ _ _ Hlook).
    pose proof (for_matches_trace w api_key val_domain puuid pre 3 no_totals) as Hloop.
    rewrite Hpre in Hloop. unfold trace in Hloop. cbn [fst] in Hloop.
    rewrite (loop_event_not_report _ Hloop). reflexivity.
Qed.

Lemma match_entry_without_id_witness :
  exists e, (e = KeyError \/ e = TypeError) /\
    main Sample.nameless_match =
      (trace (lookups Sample.nameless_match) ++
       [HttpGet (MatchById americas (JStr "m1")) "RGAPI-0000"], Raised e) /\
    detail_calls (trace (main Sample.nameless_match)) = length [Sample.item "m1"] /\
    existsb is_report_line (trace (main Sample.nameless_match)) = false.
Proof.
  apply (match_entry_without_id_aborts Sample.nameless_match
           (trace (lookups Sample.nameless_match)) "RGAPI-0000" "Player#NA1" americas
           Sample.me
           (JArr [Sample.item "m1"; JObj [("id", JStr "m2")]; Sample.item "m3"])
           [Sample.item "m1"] (JObj [("id", JStr "m2")]) [Sample.item "m3"]
           [HttpGet (MatchById americas (JStr "m1")) "RGAPI-0000"] Sample.after_first);
    vm_compute; reflexivity.
Defined.

(** ** What every request of a run looks like *)

Lemma forallb_bind {A B} (P : event -> bool) (m : proc A) (f : A -> proc B) :
  forallb P (trace m) = true ->
  (forall tr a, m = (tr, Next a) -> forallb P (trace (f a)) = true) ->
  forallb P (trace (bind m f)) = true.
Proof.
  intros Hm Hf. destruct m as [tr [a| |e]]; simpl in *; try exact Hm.
  specialize (Hf tr a eq_refl). destruct (f a) as [tr' c]. simpl in *.
  rewrite forallb_app, Hm, Hf. reflexivity.
Qed.

Lemma forallb_lift {A} (P : event -> bool) (r : res A) :
  forallb P (trace (lift r)) = true.
Proof. destruct r; reflexivity. Qed.

Ltac sent :=
  unfold trace, well_sent; cbn [forallb sent_with goes_to andb fst];
  rewrite ?bool_decide_eq_true_2 by reflexivity;
  rewrite ?String.eqb_refl; reflexivity.

Lemma region_map_hosts s host : region_map !! s = Some host -> In host known_hosts.
Proof.
  unfold region_map. intros H. apply elem_of_list_to_map_2 in H.
  repeat (apply elem_of_cons in H as [H|H];
          [injection H as -> ->; unfold known_hosts; simpl; tauto|]).
  apply elem_of_nil in H. contradiction.
Qed.

Lemma region_get_known code host :
  region_get code americas = Val host -> In host known_hosts.
Proof.
  destruct code as [| | |s| |]; simpl; try discriminate;
    try (intros [= <-]; tauto).
  destruct (region_map !! s) as [h|] eqn:Hs; simpl; intros [= <-]; [|tauto].
  exact (region_map_hosts _ _ Hs).
Qed.

Lemma loop_well_sent w api_key val_domain puuid items :
  forall n t,
  forallb (well_sent (Some api_key) val_domain)
    (trace (for_matches w api_key val_domain puuid n items t)) = true.
Proof.
  induction items as [|x items IH]; intros n t; [reflexivity|].
  cbn [for_matches]. apply forallb_bind; [|intros; apply IH].
  rewrite process_match_eq.
  destruct (py_getitem x (JStr "matchId")) as [mid|e]; [|reflexivity].
  cbv zeta. destruct (decode _) as [md|e]; sent.
Qed.

(** The host a run resolves, or the default when it does not get that far. *)
Definition resolved_host (w : world) : string :=
  match outcome (resolve w) with
  | Next (_, _, val_domain, _) => val_domain
  | _ => americas
  end.

Lemma resolved_host_known w : In (resolved_host w) known_hosts.
Proof.
  unfold resolved_host. destruct (resolve w) as [tr [[[[k rid] h] p]| |e]] eqn:Hres;
    simpl; try tauto.
  apply resolve_next_inv in Hres as (g & tg & acct & region & _ & _ & _ & _ & Hreg & _).
  exact (region_get_known _ _ Hreg).
Qed.

Lemma resolve_well_sent w host :
  forallb (well_sent (getenv_key w) host) (trace (resolve w)) = true.
Proof.
  unfold resolve. apply forallb_bind.
  { destruct (read_identity_cases w) as [(k & g & tg & _ & ->) | [-> | ->]];
      reflexivity. }
  intros tr [[[k rid] g] tg] Hid.
  apply read_identity_next_inv in Hid as (-> & _). apply forallb_bind.
  { destruct (fetch_puuid_cases w k g tg) as [(a & p & ->) | (e & ->)]; sent. }
  intros tr1 p _. apply forallb_bind.
  { destruct (fetch_shard_cases w k p) as [(r & ->) | (e & ->)]; sent. }
  intros tr2 region _. apply forallb_bind; [|reflexivity].
  rewrite resolve_domain_eq. reflexivity.
Qed.

Lemma resolve_key w tr api_key riot_id val_domain puuid :
  resolve w = (tr, Next (api_key, riot_id, val_domain, puuid)) ->
  getenv_key w = Some api_key /\ resolved_host w = val_domain.
Proof.
  intros H. unfold resolved_host. rewrite H. split; [|reflexivity].
  apply resolve_next_inv in H as (g & tg & acct & region & Hid & _).
  apply read_identity_next_inv in Hid as (Hkey & _). exact Hkey.
Qed.

Lemma report_well_sent key host riot_id t matches :
  forallb (well_sent key host) (trace (report riot_id t matches)) = true.
Proof.
  rewrite report_eq. destruct (kda_of t); [|reflexivity].
  destruct (win_rate_of t matches); reflexivity.
Qed.

(** Every request of a run carries the credential, and every match-list or
    match-detail request goes to the resolved host. *)
Lemma main_well_sent w :
  forallb (well_sent (getenv_key w) (resolved_host w)) (trace (main w)) = true.
Proof.
  unfold main, collect, lookups.
  apply forallb_bind; [|intros tr [[rid t] m] _; apply report_well_sent].
  apply forallb_bind.
  - apply forallb_bind; [apply resolve_well_sent|].
    intros tr [[[k rid] h] p] Hres. apply resolve_key in Hres as [-> ->].
    apply forallb_bind; [|reflexivity].
    destruct (fetch_matches_cases w k h p) as [(d & m & _ & _ & ->) | (ev & -> & Hev & _)];
      [sent|].
    destruct ev; try discriminate Hev; sent.
  - intros tr [[[[k rid] h] p] m] Hlook.
    apply lookups_next_inv in Hlook as (tr0 & Hres & _).
    apply resolve_key in Hres as [-> ->].
    apply forallb_bind; [apply forallb_lift|]. intros tr1 items _.
    apply forallb_bind; [apply loop_well_sent | reflexivity].
Qed.

Lemma forallb_weaken (P Q : event -> bool) tr :
  (forall ev, P ev = true -> Q ev = true) ->
  forallb P tr = true -> forallb Q tr = true.
Proof.
  intros HPQ. induction tr as [|ev tr IH]; [reflexivity|]. cbn [forallb].
  intros H. apply andb_prop in H as [Hev Htr]. rewrite (HPQ _ Hev), (IH Htr). reflexivity.
Qed.

(** X8: in every world, every HTTP request the run makes carries the
    credential read from the environment as its token; nothing is ever
    requested without it or with another token. *)
Theorem every_request_carries_the_credential (w : world) :
  forallb (sent_with (getenv_key w)) (trace (main w)) = true /\
  (forall url token, In (HttpGet url token) (trace (main w)) -> getenv_key w = Some token).
Proof.
  assert (H : forallb (sent_with (getenv_key w)) (trace (main w)) = true).
  { apply (forallb_weaken (well_sent (getenv_key w) (resolved_host w))); [|apply main_well_sent].
    intros ev Hev. apply andb_prop in Hev as [Hs _]. exact Hs. }
  split; [exact H|]. intros url token Hin.
  rewrite forallb_forall in H. specialize (H _ Hin). simpl in H.
  apply bool_decide_eq_true_1 in H. exact H.
Qed.

(** X9: in every world, the match-list request and all match-detail
    requests of a run go to one and the same host, and that host is one of
    the four the region table holds; no other host is ever contacted for
    match data. *)
Theorem match_requests_share_a_known_host (w : world) :
  exists host,
    In host known_hosts /\
    forallb (goes_to host) (trace (main w)) = true /\
    (forall h puuid token, In (HttpGet (MatchList h puuid) token) (trace (main w)) -> h = host) /\
    (forall h match_id token,
       In (HttpGet (MatchById h match_id) token) (trace (main w)) -> h = host).
Proof.
  exists (resolved_host w). split; [apply resolved_host_known|].
  assert (H : forallb (goes_to (resolved_host w)) (trace (main w)) = true).
  { apply (forallb_weaken (well_sent (getenv_key w) (resolved_host w))); [|apply main_well_sent].
    intros ev Hev. apply andb_prop in Hev as [_ Hg]. exact Hg. }
  split; [exact H|]. rewrite forallb_forall in H.
  split; intros h x token Hin; specialize (H _ Hin); simpl in H;
    apply String.eqb_eq in H; exact H.
Qed.

(** ** How many requests a run makes *)

Lemma count_bind {A B} (P : event -> bool) (m : proc A) (f : A -> proc B) n k :
  (length (List.filter P (trace m)) <= n)%nat ->
  (forall tr a, m = (tr, Next a) -> (length (List.filter P (trace (f a))) <= k)%nat) ->
  (length (List.filter P (trace (bind m f))) <= n + k)%nat.
Proof.
  intros Hm Hf. destruct m as [tr [a| |e]]; simpl in *; try lia.
  specialize (Hf tr a eq_refl). destruct (f a) as [tr' c]. simpl in *.
  rewrite List.filter_app, length_app. lia.
Qed.

Lemma count_in_loop (P : event -> bool) w api_key val_domain puuid items :
  (forall match_id e, P (StdoutSkip match_id e) = false) ->
  forall n t,
  (length (List.filter P (trace (for_matches w api_key val_domain puuid n items t)))
   <= length items)%nat.
Proof.
  intros Hskip. induction items as [|x items IH]; intros n t; [simpl; lia|].
  cbn [for_matches length].
  apply (count_bind P _ _ 1 (length items)); [|intros; apply IH].
  rewrite process_match_eq.
  destruct (py_getitem x (JStr "matchId")) as [mid|e]; [|simpl; lia].
  cbv zeta. destruct (decode _) as [md|e]; unfold trace; cbn [fst List.filter].
  - destruct (P _); simpl; lia.
  - rewrite Hskip. destruct (P _); simpl; lia.
Qed.

Lemma requests_before_loop (P : event -> bool) w :
  (forall ev, P ev = true -> is_http_get ev = true) ->
  (length (List.filter P (trace (lookups w))) <= 3)%nat.
Proof.
  intros HP.
  assert (Hone : forall ev ev', is_http_get ev' = false ->
            (length (List.filter P [ev; ev']) <= 1)%nat).
  { intros ev ev' Hev'. cbn [List.filter].
    destruct (P ev') eqn:E; [rewrite (HP _ E) in Hev'; discriminate|].
    destruct (P ev); simpl; lia. }
  assert (Hnone : forall ev, is_http_get ev = false -> List.filter P [ev] = []).
  { intros ev Hev. cbn [List.filter].
    destruct (P ev) eqn:E; [rewrite (HP _ E) in Hev; discriminate|reflexivity]. }
  unfold lookups, resolve.
  apply (count_bind P _ _ 2 1).
  - apply (count_bind P _ _ 0 2).
    { destruct (read_identity_cases w) as [(k & g & tg & _ & ->) | [-> | ->]];
        unfold trace; cbn [fst]; try (rewrite Hnone by reflexivity; simpl; lia).
      change [Prompt prompt; Stdout format_error]
        with ([Prompt prompt] ++ [Stdout format_error]).
      rewrite List.filter_app, !Hnone by reflexivity. simpl. lia. }
    intros tr [[[k rid] g] tg] _. apply (count_bind P _ _ 1 1).
    { destruct (fetch_puuid_cases w k g tg) as [(a & p & ->) | (e & ->)];
        apply Hone; reflexivity. }
    intros tr1 p _. apply (count_bind P _ _ 1 0).
    { destruct (fetch_shard_cases w k p) as [(r & ->) | (e & ->)];
        apply Hone; reflexivity. }
    intros tr2 region _. apply (count_bind P _ _ 0 0); [|intros; simpl; lia].
    rewrite resolve_domain_eq. simpl. lia.
  - intros tr [[[k rid] h] p] _. apply (count_bind P _ _ 1 0); [|intros; simpl; lia].
    destruct (fetch_matches_cases w k h p) as [(d & m & _ & _ & ->) | (ev & -> & Hev & _)].
    + unfold trace. cbn [fst List.filter]. destruct (P _); simpl; lia.
    + apply Hone. exact Hev.
Qed.

Lemma lookups_forall (Q : event -> bool) w :
  (forall ev, is_http_get ev = false -> is_report_line ev = false -> Q ev = true) ->
  (forall url token, is_detail_get (HttpGet url token) = false -> Q (HttpGet url token) = true) ->
  forallb Q (trace (lookups w)) = true.
Proof.
  intros Hother Hget.
  assert (Hpair : forall url token ev,
            is_detail_get (HttpGet url token) = false ->
            is_http_get ev = false -> is_report_line ev = false ->
            forallb Q [HttpGet url token; ev] = true).
  { intros url token ev H1 H2 H3. cbn [forallb].
    rewrite (Hget _ _ H1), (Hother _ H2 H3). reflexivity. }
  unfold lookups, resolve. apply forallb_bind.
  - apply forallb_bind.
    { destruct (read_identity_cases w) as [(k & g & tg & _ & ->) | [-> | ->]];
        unfold trace; cbn [fst forallb]; rewrite !Hother by reflexivity; reflexivity. }
    intros tr [[[k rid] g] tg] _. apply forallb_bind.
    { destruct (fetch_puuid_cases w k g tg) as [(a & p & ->) | (e & ->)];
        apply Hpair; reflexivity. }
    intros tr1 p _. apply forallb_bind.
    { destruct (fetch_shard_cases w k p) as [(r & ->) | (e & ->)];
        apply Hpair; reflexivity. }
    intros tr2 region _. apply forallb_bind; [|reflexivity].
    rewrite resolve_domain_eq. reflexivity.
  - intros tr [[[k rid] h] p] _. apply forallb_bind; [|reflexivity].
    destruct (fetch_matches_cases w k h p) as [(d & m & _ & _ & ->) | (ev & -> & H1 & H2)].
    + unfold trace. cbn [fst forallb]. rewrite Hget by reflexivity. reflexivity.
    + apply Hpair; [reflexivity | exact H1 | exact H2].
Qed.

Lemma filter_none (P : event -> bool) tr :
  forallb (fun ev => negb (P ev)) tr = true -> List.filter P tr = [].
Proof.
  induction tr as [|ev tr IH]; [reflexivity|]. cbn [forallb List.filter].
  intros H. apply andb_prop in H as [Hev Htr].
  destruct (P ev); [discriminate Hev | exact (IH Htr)].
Qed.

(** X10: in every world a run makes at most eight HTTP requests, of which
    at most five are match-detail requests, however long the history the
    match list returns. *)
Theorem at_most_eight_requests (w : world) :
  (http_calls (trace (main w)) <= 8)%nat /\ (detail_calls (trace (main w)) <= 5)%nat.
Proof.
  assert (Hloop : forall P : event -> bool,
            (forall match_id e, P (StdoutSkip match_id e) = false) ->
            (forall text, P (Stdout text) = false) ->
            forall n, (length (List.filter P (trace (lookups w))) <= n)%nat ->
            (length (List.filter P (trace (main w))) <= n + 5)%nat).
  { intros P Hskip Hout n Hn. unfold main, collect.
    replace (n + 5)%nat with (n + 5 + 0)%nat by lia.
    apply count_bind.
    2:{ intros tr [[rid t] m] _. rewrite report_eq.
        destruct (kda_of t); [|simpl; lia]. destruct (win_rate_of t m); [|simpl; lia].
        unfold trace, report_lines. cbn [fst List.filter]. rewrite !Hout. simpl. lia. }
    apply count_bind; [exact Hn|].
    intros tr [[[[k rid] h] p] m] Hlook.
    apply lookups_next_inv in Hlook as (tr0 & _ & Hcap & Htruthy & _).
    apply res_bind_val_inv in Hcap as (data & _ & Hcap).
    destruct (capped_items _ _ Hcap Htruthy) as (items & Hit & _ & Hrange).
    rewrite Hit. change (lift (Val items)) with (ret items). rewrite bind_ret.
    replace 5%nat with (5 + 0)%nat by lia.
    apply count_bind; [|intros; simpl; lia].
    pose proof (count_in_loop P w k h p items Hskip 3 no_totals). lia. }
  split.
  - unfold http_calls. change 8%nat with (3 + 5)%nat.
    apply (Hloop is_http_get); [reflexivity | reflexivity|].
    apply requests_before_loop. auto.
  - unfold detail_calls. change 5%nat with (0 + 5)%nat.
    apply (Hloop is_detail_get); [reflexivity | reflexivity|].
    rewrite (filter_none is_detail_get); [simpl; lia|].
    apply lookups_forall.
    + intros ev Hev _. destruct ev; try discriminate Hev; reflexivity.
    + intros url token H. rewrite H. reflexivity.
Qed.

Lemma prefix_append s t : String.prefix s (s +:+ t) = true.
Proof.
  induction s as [|c s IH]; [destruct t; reflexivity|].
  change (String.prefix (String c s) (String c (s +:+ t)) = true).
  cbn [String.prefix]. destruct (ascii_dec c c) as [_|Hne]; [exact IH | contradiction].
Qed.

Lemma report_has_kda_line text : is_report_line (Stdout ("KDA: " +:+ text)) = true.
Proof. unfold is_report_line. rewrite prefix_append. reflexivity. Qed.

(** X11: a run ends by falling off the end of [main] exactly when it has
    printed the KDA and win-rate lines.  Every other end, a [return] or an
    uncaught exception, comes with no line of the report: the report is
    never printed in part, and never followed by a failure. *)
Theorem report_printed_iff_run_completes (w : world) :
  existsb is_report_line (trace (main w)) = true <-> outcome (main w) = Next tt.
Proof.
  assert (Hquiet : existsb is_report_line (trace (collect w)) = false).
  { assert (H : forallb (fun ev => negb (is_report_line ev)) (trace (collect w)) = true).
    { unfold collect. apply forallb_bind.
      - apply lookups_forall.
        + intros ev _ Hev. rewrite Hev. reflexivity.
        + reflexivity.
      - intros tr [[[[k rid] h] p] m] _. apply forallb_bind; [apply forallb_lift|].
        intros tr1 items _. apply forallb_bind; [|reflexivity].
        apply (forallb_weaken is_loop_event); [|apply for_matches_trace].
        intros ev Hev. destruct ev as [| [] | | | | |]; try discriminate Hev; reflexivity. }
    induction (trace (collect w)) as [|ev tr IH]; [reflexivity|].
    cbn [forallb existsb] in *. apply andb_prop in H as [Hev Htr].
    rewrite (IH Htr). destruct (is_report_line ev); [discriminate Hev | reflexivity]. }
  unfold main. destruct (collect w) as [tr [[[rid t] m]| |e]] eqn:Hc;
    unfold trace in Hquiet; cbn [fst] in Hquiet.
  - rewrite (bind_next _ _ _ _ eq_refl). cbv beta iota. rewrite report_eq.
    unfold trace, outcome. cbn [fst snd].
    destruct (kda_of t) as [kda|e]; [destruct (win_rate_of t m) as [wr|e]|];
      cbn [fst snd]; rewrite existsb_app, Hquiet.
    + split; [reflexivity|]. intros _. unfold report_lines. cbn [existsb].
      rewrite report_has_kda_line, orb_true_r. reflexivity.
    + split; discriminate.
    + split; discriminate.
  - simpl. rewrite Hquiet. split; discriminate.
  - simpl. rewrite Hquiet. split; discriminate.
Qed.

(** ** Which matches are requested *)

Lemma detail_ids_app tr1 tr2 : detail_ids (tr1 ++ tr2) = detail_ids tr1 ++ detail_ids tr2.
Proof.
  induction tr1 as [|ev tr1 IH]; [reflexivity|].
  destruct ev as [| [] | | | | |]; simpl; rewrite IH; reflexivity.
Qed.

Lemma loop_ids w api_key val_domain puuid items :
  forall n t tr t',
  for_matches w api_key val_domain puuid n items t = (tr, Next t') ->
  map (fun match_item => py_getitem match_item (JStr "matchId")) items
  = map Val (detail_ids tr).
Proof.
  induction items as [|x items IH]; intros n t tr t'.
  - intros [= <- _]. reflexivity.
  - cbn [for_matches]. intros H.
    apply bind_next_inv in H as (tr1 & t1 & tr2 & H1 & H2 & ->).
    rewrite process_match_eq in H1.
    destruct (py_getitem x (JStr "matchId")) as [mid|e] eqn:Hid; [|discriminate H1].
    cbv zeta in H1. rewrite detail_ids_app, map_app. cbn [map]. rewrite Hid.
    rewrite (IH _ _ _ _ H2).
    destruct (decode _) as [md|e].
    + destruct (aggregate t puuid md); [|discriminate H1]. injection H1 as <- _. reflexivity.
    + injection H1 as <- _. reflexivity.
Qed.

(** X12: in a run that reaches the report, the history of the match-list
    answer was a list, the capped list is its first five entries, and the
    match-detail requests were made for the [matchId] of exactly those
    entries, one each, in the order the history gives them. *)
Theorem detail_requests_follow_history (w : world) tr riot_id t matches :
  collect w = (tr, Next (riot_id, t, matches)) ->
  exists val_domain puuid data history,
    decode (server w 2 (MatchList val_domain puuid)) = Val data /\
    py_get data "history" (JArr []) = Val (JArr history) /\
    matches = JArr (take 5 history) /\
    map (fun match_item => py_getitem match_item (JStr "matchId")) (take 5 history)
    = map Val (detail_ids tr).
Proof.
  intros H.
  apply collect_next_inv in H
    as (k & host & p & tr1 & items & tr2 & Hlook & Hit & Hloop & ->).
  apply lookups_next_inv in Hlook as (tr0 & Hres & Hcap & Htruthy & ->).
  apply resolve_next_inv in Hres as (g & tg & acct & region & _ & _ & _ & _ & _ & ->).
  apply res_bind_val_inv in Hcap as (data & Hdata & Hcap).
  unfold capped_history in Hcap. apply res_bind_val_inv in Hcap as (h & Hh & Hslice).
  exists host, p, data.
  destruct h as [| | |s|l|d]; try discriminate Hslice; injection Hslice as <-.
  - exfalso. simpl in Hit. injection Hit as <-. simpl in Htruthy.
    destruct (chars (string_of_list_ascii (take 5 (chars s)))) as [|c cs] eqn:Hcs.
    + destruct (string_of_list_ascii (take 5 (chars s))); [discriminate Htruthy|].
      discriminate Hcs.
    + cbn [map for_matches] in Hloop. rewrite process_match_eq in Hloop.
      discriminate Hloop.
  - exists l. simpl in Hit. injection Hit as <-.
    repeat split; auto.
    rewrite (loop_ids _ _ _ _ _ _ _ _ _ Hloop), detail_ids_app. reflexivity.
Qed.

Lemma detail_requests_witness :
  exists val_domain puuid data history,
    decode (server Sample.played 2 (MatchList val_domain puuid)) = Val data /\
    py_get data "history" (JArr []) = Val (JArr history) /\
    Sample.played_matches = JArr (take 5 history) /\
    map (fun match_item => py_getitem match_item (JStr "matchId")) (take 5 history)
    = map Val (detail_ids (trace (collect Sample.played))).
Proof.
  apply (detail_requests_follow_history Sample.played (trace (collect Sample.played))
           "Player#NA1" Sample.played_totals).
  vm_compute. reflexivity.
Defined.

(** ** The totals are a sum *)








(** ** Statistics fields *)

Lemma py_add_raises total v : is_number v = false -> py_add total v = Exc TypeError.
Proof. destruct v; simpl; try discriminate; reflexivity. Qed.

Lemma py_add_outcome total v :
  (exists n, py_add total v = Val n) \/ py_add total v = Exc TypeError.
Proof. destruct v; simpl; eauto. Qed.

Lemma py_get_object fields key fallback :
  py_get (JObj fields) key fallback =
  Val (match dict_get key fields with Some v => v | None => fallback end).
Proof. simpl. destruct (dict_get key fields); reflexivity. Qed.

Lemma stats_chain tk td ta kills deaths assists (rest : Z -> Z -> Z -> res totals) :
  is_number kills = false \/ is_number deaths = false \/ is_number assists = false ->
  res_bind (py_add tk kills) (fun k =>
  res_bind (py_add td deaths) (fun d =>
  res_bind (py_add ta assists) (fun a => rest k d a))) = Exc TypeError.
Proof.
  intros [H | [H | H]].
  - rewrite (py_add_raises _ _ H). reflexivity.
  - destruct (py_add_outcome tk kills) as [[k ->] | ->]; [|reflexivity].
    cbn [res_bind]. rewrite (py_add_raises _ _ H). reflexivity.
  - destruct (py_add_outcome tk kills) as [[k ->] | ->]; [|reflexivity].
    cbn [res_bind]. destruct (py_add_outcome td deaths) as [[d ->] | ->]; [|reflexivity].
    cbn [res_bind]. rewrite (py_add_raises _ _ H). reflexivity.
Qed.

(** X14: the default of [stats.get(..., 0)] applies to an absent key only.
    When the matched player's [stats] object holds [kills], [deaths] or
    [assists] with a value that is not a number ([null], a string, a list,
    an object), adding it to the totals raises [TypeError]; the match is
    not skipped and nothing is added. *)
Theorem non_numeric_stat_raises (t : totals) fields stats match_data key v :
  dict_get "stats" fields = Some (JObj stats) ->
  In key ["kills"; "deaths"; "assists"] ->
  dict_get key stats = Some v ->
  is_number v = false ->
  add_player t (JObj fields) match_data = Exc TypeError.
Proof.
  intros Hstats Hkey Hv Hnum. unfold add_player.
  rewrite !py_get_object, Hstats. cbn [res_bind].
  rewrite !py_get_object. cbn [res_bind]. apply stats_chain.
  simpl in Hkey. destruct Hkey as [<- | [<- | [<- | []]]]; rewrite Hv; auto.
Qed.

Lemma non_numeric_stat_witness :
  add_player Sample.after_first Sample.null_deaths Sample.stranger_body = Exc TypeError.
Proof.
  apply (non_numeric_stat_raises Sample.after_first
           [("puuid", Sample.me); ("teamId", JStr "Red");
            ("stats", JObj [("kills", JNum 4); ("deaths", JNull); ("assists", JNum 1)])]
           [("kills", JNum 4); ("deaths", JNull); ("assists", JNum 1)]
           Sample.stranger_body "deaths" JNull).
  - reflexivity.
  - simpl. tauto.
  - reflexivity.
  - reflexivity.
Defined.

Lemma stat_default fields key stats v :
  stat_absent fields key ->
  py_get (JObj fields) "stats" (JObj []) = Val stats ->
  py_get stats key (JNum 0) = Val v ->
  v = JNum 0.
Proof.
  intros [Hnone | (sd & Hsome & Hkey)] Hstats Hv; rewrite py_get_object in Hstats.
  - rewrite Hnone in Hstats. injection Hstats as <-. injection Hv as <-. reflexivity.
  - rewrite Hsome in Hstats. injection Hstats as <-.
    rewrite py_get_object, Hkey in Hv. injection Hv as <-. reflexivity.
Qed.

(** X15: a statistic the matched player's entry does not give counts as
    zero: when the entry has no [stats] object, or its [stats] object lacks
    [kills], [deaths] or [assists], aggregating the entry leaves that total
    as it was. *)
Theorem absent_stat_counts_zero (t t' : totals) fields match_data :
  add_player t (JObj fields) match_data = Val t' ->
  (stat_absent fields "kills" -> total_kills t' = total_kills t) /\
  (stat_absent fields "deaths" -> total_deaths t' = total_deaths t) /\
  (stat_absent fields "assists" -> total_assists t' = total_assists t).
Proof.
  unfold add_player. intros H. res_inv H. injection H as <-.
  cbn [total_kills total_deaths total_assists].
  repeat split; intros Habs;
    match goal with
    | Hs : py_get (JObj fields) "stats" _ = Val ?st,
      Hv : py_get ?st ?key _ = Val ?v,
      Hadd : py_add _ ?v = Val ?n |- ?n = _ =>
        first [ rewrite (stat_default _ _ _ _ Habs Hs Hv) in Hadd;
                injection Hadd as <-; lia
              | fail 1 ]
    end.
Qed.

Lemma absent_stat_witness :
  (stat_absent [("puuid", Sample.me); ("teamId", JStr "Red");
                ("stats", JObj [("kills", JNum 4)])] "kills" ->
   total_kills {| total_kills := 6; total_deaths := 0; total_assists := 1; total_wins := 1 |}
   = total_kills Sample.after_first) /\
  (stat_absent [("puuid", Sample.me); ("teamId", JStr "Red");
                ("stats", JObj [("kills", JNum 4)])] "deaths" ->
   total_deaths {| total_kills := 6; total_deaths := 0; total_assists := 1; total_wins := 1 |}
   = total_deaths Sample.after_first) /\
  (stat_absent [("puuid", Sample.me); ("teamId", JStr "Red");
                ("stats", JObj [("kills", JNum 4)])] "assists" ->
   total_assists {| total_kills := 6; total_deaths := 0; total_assists := 1; total_wins := 1 |}
   = total_assists Sample.after_first).
Proof.
  apply (absent_stat_counts_zero Sample.after_first _ _ Sample.listed_teams).
  reflexivity.
Defined.

(** ** Win credit *)

Lemma objects_differ_from_strings s l :
  forallb is_object l = true -> existsb (fun x => py_eq x (JStr s)) l = false.
Proof.
  induction l as [|x l IH]; [reflexivity|]. cbn [forallb existsb].
  intros H. apply andb_prop in H as [Hx Hl]. rewrite (IH Hl).
  destruct x; try discriminate Hx; reflexivity.
Qed.

(** X16: a match credits no win, and raises nothing on that account, when
    the matched player's [teamId] is absent or empty, when the match holds
    no entry for that team in a [teams] object (or no [teams] at all), and
    also when [teams] is a list of team objects: a string is then compared
    with objects and never found. *)
Theorem no_win_without_a_team_entry (player_data match_data team_id teams_data : json) :
  py_get player_data "teamId" JNull = Val team_id ->
  py_get match_data "teams" (JObj []) = Val teams_data ->
  py_truthy team_id = false \/
  (exists s d, team_id = JStr s /\ teams_data = JObj d /\ dict_get s d = None) \/
  (exists s l, team_id = JStr s /\ teams_data = JArr l /\ forallb is_object l = true) ->
  team_won team_id teams_data = Val false /\
  forall t t', add_player t player_data match_data = Val t' -> total_wins t' = total_wins t.
Proof.
  intros Hteam Hteams Hcase.
  assert (Hwon : team_won team_id teams_data = Val false).
  { unfold team_won.
    destruct Hcase as [-> | [(s & d & -> & -> & Hd) | (s & l & -> & -> & Hl)]];
      [reflexivity|..]; destruct (py_truthy (JStr s)); try reflexivity; cbn [py_contains].
    - rewrite Hd. reflexivity.
    - rewrite (objects_differ_from_strings _ _ Hl). reflexivity. }
  split; [exact Hwon|].
  unfold add_player. intros t t' H. res_inv H.
  rewrite Hteam in Ha6. injection Ha6 as <-.
  rewrite Hteams in Ha7. injection Ha7 as <-.
  rewrite Hwon in Ha8. injection Ha8 as <-. injection H as <-. reflexivity.
Qed.

Lemma no_win_witness :
  team_won (JStr "Red")
    (JArr [JObj [("teamId", JStr "Red"); ("won", JBool true)];
           JObj [("teamId", JStr "Blue"); ("won", JBool false)]]) = Val false /\
  forall t t', add_player t Sample.kills_only Sample.listed_teams = Val t' ->
               total_wins t' = total_wins t.
Proof.
  apply (no_win_without_a_team_entry Sample.kills_only Sample.listed_teams).
  - reflexivity.
  - reflexivity.
  - right. right. eexists _, _. repeat split.
Defined.

(** ** The win rates that can be printed *)

Lemma small_rate a b :
  0 <= a <= b -> 1 <= b <= 5 ->
  exists q, py_truediv a b = Val q /\
    In (format_fixed 1 (py_mul_int q 100)) win_rate_texts.
Proof.
  intros Ha Hb.
  assert (Hcases : List.In (a, b)
    [(0,1); (1,1); (0,2); (1,2); (2,2); (0,3); (1,3); (2,3); (3,3);
     (0,4); (1,4); (2,4); (3,4); (4,4);
     (0,5); (1,5); (2,5); (3,5); (4,5); (5,5)]).
  { assert (b = 1 \/ b = 2 \/ b = 3 \/ b = 4 \/ b = 5) as Hb' by lia.
    assert (a = 0 \/ a = 1 \/ a = 2 \/ a = 3 \/ a = 4 \/ a = 5) as Ha' by lia.
    simpl. destruct Hb' as [->|[->|[->|[->| ->]]]];
      destruct Ha' as [->|[->|[->|[->|[->| ->]]]]]; try lia; tauto. }
  simpl in Hcases.
  repeat (destruct Hcases as [[= <- <-]|Hcases];
          [eexists; split; [vm_compute; reflexivity | vm_compute; tauto]|]).
  contradiction.
Qed.

(** X17: whatever the matches hold, a report shows one of eleven win
    rates: the wins never exceed the one to five matches attempted, so the
    last line printed is one of 0.0, 20.0, 25.0, 33.3, 40.0, 50.0, 60.0,
    66.7, 75.0, 80.0 and 100.0 per cent. *)
Theorem win_rate_is_one_of_eleven (w : world) tr riot_id t matches kda :
  collect w = (tr, Next (riot_id, t, matches)) ->
  kda_of t = Val kda ->
  exists text, In text win_rate_texts /\
    last (trace (main w)) = Some (Stdout ("Win Rate: " +:+ text +:+ "%")).
Proof.
  intros H Hkda.
  destruct (collect_counts _ _ _ _ _ H) as (_ & Hrange & Hwins).
  destruct (main_reports _ _ _ _ _ _ H Hkda) as (q & Hq & Hmain).
  destruct (small_rate (total_wins t) (Z.of_nat (detail_calls tr))) as (q' & Hq' & Hin);
    [lia..|].
  rewrite Hq in Hq'. injection Hq' as <-.
  exists (format_fixed 1 (py_mul_int q 100)). split; [exact Hin|].
  rewrite Hmain. unfold trace, report_lines. cbn [fst]. rewrite last_app. reflexivity.
Qed.

Lemma win_rate_texts_witness :
  exists text, In text win_rate_texts /\
    last (trace (main Sample.played)) = Some (Stdout ("Win Rate: " +:+ text +:+ "%")).
Proof.
  apply (win_rate_is_one_of_eleven Sample.played (trace (collect Sample.played))
           "Player#NA1" Sample.played_totals Sample.played_matches
           (S754_finite false 5629499534213120 (-50))); vm_compute; reflexivity.
Defined.
